(** * scripts/conformance_validator.py: the OIDC conformance validator

    A shallow embedding of [ConformanceTester], [print_results] and [main],
    and the properties of the gated check pipeline.

    Conventions of the embedding.
    - A value that Python obtains from [resp.json()] is a [json]; Python's
      [None] is [JNull].  Numbers are the integers (a JSON document with a
      fractional number is outside the model).
    - A Python [dict] is an association list in insertion order; a document
      produced by a JSON parser has pairwise distinct keys, and [assoc] reads
      the first binding of a key.
    - A Python [str] is a [string] holding the UTF-8 bytes of its characters
      (a lone surrogate, which a JSON document can deliver, in its three-byte
      form); [char_list] splits it into characters, and [len], [[:8]] and
      iteration go by characters, not by bytes.
    - [print] hands a line to standard output, whose encoder may reject it
      ([UnicodeEncodeError]); ASCII text is always accepted.  A standard
      output that is closed or full is outside the model.
    - An expression that may raise is a [Py A] (the exception, or the value);
      a method that also talks to the network or assigns [self.metadata] is
      an [M A], which threads the tester, the network and the log of the
      exchanges performed so far. *)

From Stdlib Require Import ZArith List String Ascii Bool Lia DecimalString.
Import ListNotations.
Open Scope string_scope.
Open Scope Z_scope.

(** ** JSON values as Python sees them *)

Set Warnings "-register-all".

Inductive json : Type :=
| JNull
| JBool (b : bool)
| JNum (n : Z)
| JStr (s : string)
| JArr (items : list json)
| JObj (fields : list (string * json)).

(** The exceptions the script can meet.  [RequestException] is what the
    [requests] library raises for a failed exchange, with its text. *)
Inductive exn : Type :=
| KeyError (key : string)
| TypeError
| AttributeError
| HTTPError (status : Z)
| JSONDecodeError
| UnicodeEncodeError
| RequestException (text : string).

Definition Py (A : Type) : Type := (exn + A)%type.

Definition py_ret {A} (a : A) : Py A := inr a.
Definition py_raise {A} (e : exn) : Py A := inl e.
Definition py_bind {A B} (m : Py A) (k : A -> Py B) : Py B :=
  match m with
  | inl e => inl e
  | inr a => k a
  end.

Fixpoint assoc (k : string) (kv : list (string * json)) : option json :=
  match kv with
  | [] => None
  | (k', v) :: rest => if String.eqb k k' then Some v else assoc k rest
  end.

Definition has_key (k : string) (kv : list (string * json)) : bool :=
  match assoc k kv with
  | Some _ => true
  | None => false
  end.

(** [bool(v)] *)
Definition py_truthy (v : json) : bool :=
  match v with
  | JNull => false
  | JBool b => b
  | JNum n => negb (n =? 0)
  | JStr s => negb (String.eqb s "")
  | JArr l => match l with [] => false | _ => true end
  | JObj kv => match kv with [] => false | _ => true end
  end.

(** [a == b]: [True == 1], sequences element by element, mappings as
    mappings (whatever the order of their keys). *)
Fixpoint py_eq (a b : json) {struct a} : bool :=
  match a, b with
  | JNull, JNull => true
  | JBool x, JBool y => Bool.eqb x y
  | JBool x, JNum n => (if x then 1 else 0) =? n
  | JNum n, JBool x => n =? (if x then 1 else 0)
  | JNum x, JNum y => x =? y
  | JStr x, JStr y => String.eqb x y
  | JArr xs, JArr ys =>
      (fix all2 (xs ys : list json) : bool :=
         match xs, ys with
         | [], [] => true
         | x :: xs', y :: ys' => py_eq x y && all2 xs' ys'
         | _, _ => false
         end) xs ys
  | JObj xs, JObj ys =>
      (List.length xs =? List.length ys)%nat &&
      (fix sub (xs : list (string * json)) : bool :=
         match xs with
         | [] => true
         | (k, v) :: xs' =>
             match assoc k ys with
             | Some w => py_eq v w
             | None => false
             end && sub xs'
         end) xs
  | _, _ => false
  end.

(** [needle in haystack] for the three container shapes *)
Fixpoint is_substring (needle hay : string) : bool :=
  String.prefix needle hay ||
  match hay with
  | EmptyString => false
  | String _ hay' => is_substring needle hay'
  end.

(** [s in c], for a string [s] *)
Definition py_in (s : string) (c : json) : Py bool :=
  match c with
  | JObj kv => py_ret (has_key s kv)
  | JArr l => py_ret (existsb (py_eq (JStr s)) l)
  | JStr t => py_ret (is_substring s t)
  | _ => py_raise TypeError
  end.

(** [c.get(k, default)] *)
Definition py_get (c : json) (k : string) (default : json) : Py json :=
  match c with
  | JObj kv => py_ret (match assoc k kv with Some v => v | None => default end)
  | _ => py_raise AttributeError
  end.

(** [c[k]], for a string [k] *)
Definition py_getitem (c : json) (k : string) : Py json :=
  match c with
  | JObj kv =>
      match assoc k kv with
      | Some v => py_ret v
      | None => py_raise (KeyError k)
      end
  | _ => py_raise TypeError
  end.

(** A byte that continues a character of several bytes (10xxxxxx). *)
Definition is_continuation (c : ascii) : bool :=
  (128 <=? nat_of_ascii c)%nat && (nat_of_ascii c <? 192)%nat.

(** The characters of a string, each with all its bytes. *)
Fixpoint char_list (s : string) : list string :=
  match s with
  | EmptyString => []
  | String c s' =>
      match s' with
      | EmptyString => [String c EmptyString]
      | String d _ =>
          if is_continuation d then
            match char_list s' with
            | h :: t => String c h :: t
            | [] => [String c EmptyString]
            end
          else String c EmptyString :: char_list s'
      end
  end.

(** [s[:n]] on a string: its first [n] characters. *)
Definition first_chars (n : nat) (s : string) : string :=
  String.concat "" (firstn n (char_list s)).

(** [len(c)] *)
Definition py_len (c : json) : Py nat :=
  match c with
  | JArr l => py_ret (List.length l)
  | JObj kv => py_ret (List.length kv)
  | JStr s => py_ret (List.length (char_list s))
  | _ => py_raise TypeError
  end.

Definition chars (s : string) : list json := map JStr (char_list s).

(** what a [for] loop over [c] visits *)
Definition py_iter (c : json) : Py (list json) :=
  match c with
  | JArr l => py_ret l
  | JObj kv => py_ret (map (fun p => JStr (fst p)) kv)
  | JStr s => py_ret (chars s)
  | _ => py_raise TypeError
  end.

(** [[f for f in required if f not in c]] *)
Fixpoint missing_fields (required : list string) (c : json) : Py (list string) :=
  match required with
  | [] => py_ret []
  | f :: rest =>
      py_bind (py_in f c) (fun present =>
      py_bind (missing_fields rest c) (fun m =>
      py_ret (if present then m else f :: m)))
  end.

(** [', '.join(xs)] *)
Definition join (xs : list string) : string := String.concat ", " xs.

(** [v[:8] + "..."]: only a string can be sliced and then extended by a
    string; every other value raises (for a mapping the class of the
    exception depends on the Python version, its being raised does not). *)
Definition py_head8_dots (v : json) : Py json :=
  match v with
  | JStr s => py_ret (JStr (first_chars 8 s ++ "..."))
  | _ => py_raise TypeError
  end.

(** [str(n)] for an integer *)
Definition str_int (n : Z) : string := NilZero.string_of_int (Z.to_int n).

(** [s.rstrip('/')] *)
Fixpoint rstrip_slash (s : string) : string :=
  match s with
  | EmptyString => EmptyString
  | String c s' =>
      match rstrip_slash s' with
      | EmptyString => if Ascii.eqb c "/" then EmptyString else String c EmptyString
      | t => String c t
      end
  end.

(** ** Results, requests and the runtime *)

(** [TestResult]; [details] is [JNull] when the field keeps its default. *)
Record TestResult : Type := mkTestResult {
  name : string;
  passed : bool;
  message : string;
  details : json
}.

Inductive Method : Type := GET | POST | PUT | DELETE.

(** One call of [requests.get], [.post], [.put] or [.delete]. *)
Record Request : Type := mkRequest {
  rq_method : Method;
  rq_url : json;
  rq_json : option json;
  rq_headers : list (string * string);
  rq_timeout : Z
}.

(** What the script reads of a response: the status and the body as
    [resp.json()] parses it ([None] when it does not parse). *)
Record Response : Type := mkResponse {
  status_code : Z;
  body : option json
}.

Inductive Outcome : Type :=
| Raised (e : exn)
| Returned (r : Response).

(** A text of ASCII characters only. *)
Fixpoint is_ascii (s : string) : bool :=
  match s with
  | EmptyString => true
  | String c s' => (nat_of_ascii c <? 128)%nat && is_ascii s'
  end.

(** What the script takes from outside: the provider behind the network
    ([send] answers a request and moves the provider to its next state), the
    text Python prints for a sequence or a mapping, the text of an
    exception, and the encoder of standard output ([stdout_accepts] tells
    whether it can encode a text; every encoding Python uses there can
    encode ASCII). *)
Class Runtime : Type := {
  World : Type;
  send : Request -> World -> Outcome * World;
  py_repr : json -> string;
  exn_text : exn -> string;
  stdout_accepts : string -> bool;
  stdout_ascii : forall s, is_ascii s = true -> stdout_accepts s = true
}.

Section Validator.
Context {RT : Runtime}.

(** [str(v)], which is also what an f-string field prints *)
Definition py_str (v : json) : string :=
  match v with
  | JStr s => s
  | JNum n => str_int n
  | JBool true => "True"
  | JBool false => "False"
  | JNull => "None"
  | _ => py_repr v
  end.

(** [resp.raise_for_status()] *)
Definition raise_for_status (r : Response) : Py unit :=
  if (400 <=? status_code r) && (status_code r <? 600)
  then py_raise (HTTPError (status_code r))
  else py_ret tt.

(** [resp.json()] *)
Definition resp_json (r : Response) : Py json :=
  match body r with
  | Some j => py_ret j
  | None => py_raise JSONDecodeError
  end.

(** ** The tester and its methods *)

Record ConformanceTester : Type := mkTester {
  ngrok_url : string;
  discovery_url : string;
  metadata : json
}.

(** [ConformanceTester.__init__] *)
Definition init (url : string) : ConformanceTester :=
  let u := rstrip_slash url in
  {| ngrok_url := u;
     discovery_url := u ++ "/.well-known/openid-configuration";
     metadata := JNull |}.

Record Env : Type := mkEnv {
  self : ConformanceTester;
  world : World;
  trace : list (Request * Outcome)
}.

Definition M (A : Type) : Type := Env -> Py A * Env.

Definition ret {A} (a : A) : M A := fun e => (inr a, e).
Definition bind {A B} (m : M A) (k : A -> M B) : M B :=
  fun e =>
    match m e with
    | (inl x, e') => (inl x, e')
    | (inr a, e') => k a e'
    end.
Definition lift {A} (p : Py A) : M A := fun e => (p, e).

(** [try: body except Exception as e: handler(e)]; what the body did to the
    state before it raised stays done. *)
Definition try_except {A} (body : M A) (handler : exn -> M A) : M A :=
  fun e =>
    match body e with
    | (inl x, e') => handler x e'
    | (inr a, e') => (inr a, e')
    end.

Notation "x <- m ;; k" := (bind m (fun x => k))
  (at level 61, m at next level, right associativity).
Notation "m ;;; k" := (bind m (fun _ => k))
  (at level 61, right associativity).

Definition get_self : M ConformanceTester := fun e => (inr (self e), e).

(** [self.metadata = v] *)
Definition set_metadata (v : json) : M unit :=
  fun e =>
    (inr tt,
     {| self := {| ngrok_url := ngrok_url (self e);
                   discovery_url := discovery_url (self e);
                   metadata := v |};
        world := world e;
        trace := trace e |}).

(** One exchange: the provider answers, the exchange is logged. *)
Definition request (rq : Request) : M Response :=
  fun e =>
    let (o, w') := send rq (world e) in
    (match o with
     | Raised x => inl x
     | Returned r => inr r
     end,
     {| self := self e; world := w'; trace := trace e ++ [(rq, o)] |}).

Definition requests_get (url : json) (headers : list (string * string)) : M Response :=
  request (mkRequest GET url None headers 10).
Definition requests_post (url payload : json) (headers : list (string * string)) : M Response :=
  request (mkRequest POST url (Some payload) headers 10).
Definition requests_put (url payload : json) (headers : list (string * string)) : M Response :=
  request (mkRequest PUT url (Some payload) headers 10).
Definition requests_delete (url : json) (headers : list (string * string)) : M Response :=
  request (mkRequest DELETE url None headers 10).

Definition failed (nm msg : string) (d : json) : TestResult :=
  mkTestResult nm false msg d.

Definition nonempty {A} (l : list A) : bool :=
  match l with
  | [] => false
  | _ => true
  end.

Definition required_fields : list string :=
  [ "issuer"; "authorization_endpoint"; "token_endpoint"; "jwks_uri";
    "response_types_supported"; "subject_types_supported";
    "id_token_signing_alg_values_supported" ].

(** [ConformanceTester.test_discovery] *)
Definition test_discovery : M TestResult :=
  try_except
    (s <- get_self ;;
     resp <- requests_get (JStr (discovery_url s)) [] ;;
     lift (raise_for_status resp) ;;;
     doc <- lift (resp_json resp) ;;
     set_metadata doc ;;;
     s <- get_self ;;
     missing <- lift (missing_fields required_fields (metadata s)) ;;
     if nonempty missing then
       ret (failed "Discovery Endpoint"
              ("Missing required fields: " ++ join missing) (metadata s))
     else
       issuer <- lift (py_getitem (metadata s) "issuer") ;;
       if negb (py_eq issuer (JStr (ngrok_url s))) then
         ret (failed "Discovery Endpoint"
                ("Issuer mismatch: " ++ py_str issuer ++ " != " ++ ngrok_url s)
                (metadata s))
       else
         authorization <- lift (py_getitem (metadata s) "authorization_endpoint") ;;
         token <- lift (py_getitem (metadata s) "token_endpoint") ;;
         jwks <- lift (py_getitem (metadata s) "jwks_uri") ;;
         registration <- lift (py_get (metadata s) "registration_endpoint" (JStr "N/A")) ;;
         ret (mkTestResult "Discovery Endpoint" true "All required fields present"
                (JObj [ ("issuer", issuer);
                        ("endpoints",
                         JObj [ ("authorization", authorization);
                                ("token", token);
                                ("jwks", jwks);
                                ("registration", registration) ]) ])))
    (fun x => ret (failed "Discovery Endpoint" ("Failed: " ++ exn_text x) JNull)).

Definition required_key_fields : list string := [ "kty"; "use"; "kid" ].

(** The loop over [enumerate(jwks["keys"])]: the result it returns from
    inside, if it does. *)
Fixpoint check_keys (i : nat) (keys : list json) : Py (option TestResult) :=
  match keys with
  | [] => py_ret None
  | key :: rest =>
      py_bind (missing_fields required_key_fields key) (fun missing =>
      if nonempty missing then
        py_ret (Some (failed "JWKS Endpoint"
                        ("Key " ++ str_int (Z.of_nat i) ++ " missing fields: "
                         ++ join missing) JNull))
      else check_keys (S i) rest)
  end.

(** [[k.get(f) for k in keys]] *)
Fixpoint get_each (f : string) (keys : list json) : Py (list json) :=
  match keys with
  | [] => py_ret []
  | k :: rest =>
      py_bind (py_get k f JNull) (fun v =>
      py_bind (get_each f rest) (fun vs =>
      py_ret (v :: vs)))
  end.

(** [ConformanceTester.test_jwks] *)
Definition test_jwks : M TestResult :=
  try_except
    (s <- get_self ;;
     if negb (py_truthy (metadata s)) then
       ret (failed "JWKS Endpoint" "Discovery must pass first" JNull)
     else
       jwks_uri <- lift (py_get (metadata s) "jwks_uri" JNull) ;;
       if negb (py_truthy jwks_uri) then
         ret (failed "JWKS Endpoint" "No jwks_uri in discovery" JNull)
       else
         resp <- requests_get jwks_uri [] ;;
         lift (raise_for_status resp) ;;;
         jwks <- lift (resp_json resp) ;;
         has_keys <- lift (py_in "keys" jwks) ;;
         if negb has_keys then
           ret (failed "JWKS Endpoint" "JWKS missing 'keys' field" JNull)
         else
           (* the source reads jwks["keys"] anew at each use; it is the same
              value each time *)
           keys <- lift (py_getitem jwks "keys") ;;
           n <- lift (py_len keys) ;;
           if (n =? 0)%nat then
             ret (failed "JWKS Endpoint" "JWKS has no keys" JNull)
           else
             items <- lift (py_iter keys) ;;
             stop <- lift (check_keys 0 items) ;;
             match stop with
             | Some r => ret r
             | None =>
                 key_types <- lift (get_each "kty" items) ;;
                 algorithms <- lift (get_each "alg" items) ;;
                 ret (mkTestResult "JWKS Endpoint" true
                        ("Valid JWKS with " ++ str_int (Z.of_nat n) ++ " key(s)")
                        (JObj [ ("key_count", JNum (Z.of_nat n));
                                ("key_types", JArr key_types);
                                ("algorithms", JArr algorithms) ]))
             end)
    (fun x => ret (failed "JWKS Endpoint" ("Failed: " ++ exn_text x) JNull)).

Definition registration_payload : json :=
  JObj [ ("redirect_uris", JArr [JStr "https://example.com/callback"]);
         ("client_name", JStr "Conformance Validator Test Client");
         ("grant_types", JArr [JStr "authorization_code"]);
         ("response_types", JArr [JStr "code"]);
         ("token_endpoint_auth_method", JStr "client_secret_basic") ].

Definition required_resp_fields : list string := [ "client_id" ].

(** The last [return] of [test_registration]. *)
Definition registered (client : json) : M TestResult :=
  client_id <- lift (py_getitem client "client_id") ;;
  shown <- lift (py_head8_dots client_id) ;;
  secret <- lift (py_in "client_secret" client) ;;
  reg_token <- lift (py_in "registration_access_token" client) ;;
  ret (mkTestResult "Registration Endpoint" true
         "Client registered successfully"
         (JObj [ ("client_id", shown);
                 ("has_secret", JBool secret);
                 ("has_registration_token", JBool reg_token) ])).

(** [ConformanceTester.test_registration] *)
Definition test_registration : M TestResult :=
  try_except
    (s <- get_self ;;
     if negb (py_truthy (metadata s)) then
       ret (failed "Registration Endpoint" "Discovery must pass first" JNull)
     else
       reg_endpoint <- lift (py_get (metadata s) "registration_endpoint" JNull) ;;
       if negb (py_truthy reg_endpoint) then
         ret (failed "Registration Endpoint" "No registration_endpoint in discovery" JNull)
       else
         resp <- requests_post reg_endpoint registration_payload
                   [("Content-Type", "application/json")] ;;
         lift (raise_for_status resp) ;;;
         client <- lift (resp_json resp) ;;
         missing <- lift (missing_fields required_resp_fields client) ;;
         if nonempty missing then
           ret (failed "Registration Endpoint"
                  ("Response missing fields: " ++ join missing) client)
         else
           auth_method <- lift (py_get client "token_endpoint_auth_method" JNull) ;;
           if negb (py_eq auth_method (JStr "none")) then
             has_secret <- lift (py_in "client_secret" client) ;;
             if negb has_secret then
               ret (failed "Registration Endpoint"
                      "Missing client_secret for confidential client" client)
             else registered client
           else registered client)
    (fun x => ret (failed "Registration Endpoint" ("Failed: " ++ exn_text x) JNull)).

Definition crud_payload : json :=
  JObj [ ("redirect_uris", JArr [JStr "https://example.com/callback"]);
         ("client_name", JStr "CRUD Test Client");
         ("grant_types", JArr [JStr "authorization_code"]);
         ("response_types", JArr [JStr "code"]) ].

Definition update_metadata : json :=
  JObj [ ("redirect_uris",
          JArr [JStr "https://example.com/callback"; JStr "https://example.com/cb2"]);
         ("client_name", JStr "Updated CRUD Test Client") ].

Definition bearer (reg_token : json) : list (string * string) :=
  [("Authorization", "Bearer " ++ py_str reg_token)].

(** [ConformanceTester.test_registration_crud] *)
Definition test_registration_crud : M TestResult :=
  try_except
    (s <- get_self ;;
     if negb (py_truthy (metadata s)) then
       ret (failed "Registration CRUD" "Discovery must pass first" JNull)
     else
       reg_endpoint <- lift (py_get (metadata s) "registration_endpoint" JNull) ;;
       if negb (py_truthy reg_endpoint) then
         ret (failed "Registration CRUD" "No registration_endpoint in discovery" JNull)
       else
         (* Create client *)
         resp <- requests_post reg_endpoint crud_payload [] ;;
         lift (raise_for_status resp) ;;;
         client <- lift (resp_json resp) ;;
         client_id <- lift (py_getitem client "client_id") ;;
         reg_token <- lift (py_get client "registration_access_token" JNull) ;;
         if negb (py_truthy reg_token) then
           ret (failed "Registration CRUD" "No registration_access_token in response" JNull)
         else
           (* Read client (GET) *)
           let get_url := JStr (py_str reg_endpoint ++ "/" ++ py_str client_id) in
           resp <- requests_get get_url (bearer reg_token) ;;
           lift (raise_for_status resp) ;;;
           retrieved <- lift (resp_json resp) ;;
           retrieved_id <- lift (py_getitem retrieved "client_id") ;;
           if negb (py_eq retrieved_id client_id) then
             ret (failed "Registration CRUD" "Retrieved client_id mismatch" JNull)
           else
             (* Update client (PUT) *)
             resp <- requests_put get_url update_metadata (bearer reg_token) ;;
             lift (raise_for_status resp) ;;;
             updated <- lift (resp_json resp) ;;
             uris <- lift (py_getitem updated "redirect_uris") ;;
             n <- lift (py_len uris) ;;
             if negb (n =? 2)%nat then
               ret (failed "Registration CRUD" "Client update failed" JNull)
             else
               (* Delete client (DELETE) *)
               resp <- requests_delete get_url (bearer reg_token) ;;
               if negb (status_code resp =? 204) then
                 ret (failed "Registration CRUD"
                        ("Delete returned " ++ str_int (status_code resp)
                         ++ ", expected 204") JNull)
               else
                 ret (mkTestResult "Registration CRUD" true
                        "All CRUD operations successful"
                        (JObj [ ("create", JStr "✓"); ("read", JStr "✓");
                                ("update", JStr "✓"); ("delete", JStr "✓") ])))
    (fun x => ret (failed "Registration CRUD" ("Failed: " ++ exn_text x) JNull)).

(** [issues.append(msg)] under [if cond:] *)
Definition append_if (cond : bool) (msg : string) (issues : list string) : list string :=
  if cond then issues ++ [msg] else issues.

(** The battery of [test_metadata_compliance]: the issues list at the end of
    it. *)
Definition compliance_issues (md : json) : Py (list string) :=
  let issues := [] in
  py_bind (py_get md "response_types_supported" (JArr [])) (fun response_types =>
  py_bind (py_in "code" response_types) (fun has_code =>
  let issues := append_if (negb has_code)
                  "Missing 'code' in response_types_supported" issues in
  py_bind (py_get md "grant_types_supported" (JArr [])) (fun grant_types =>
  py_bind (py_in "authorization_code" grant_types) (fun has_grant =>
  let issues := append_if (negb has_grant)
                  "Missing 'authorization_code' in grant_types_supported" issues in
  py_bind (py_get md "token_endpoint_auth_methods_supported" (JArr [])) (fun auth_methods =>
  let issues := append_if (negb (py_truthy auth_methods))
                  "No token_endpoint_auth_methods_supported" issues in
  py_bind (py_get md "scopes_supported" JNull) (fun scopes =>
  py_bind (if negb (py_truthy scopes) then py_ret (issues ++ ["No scopes_supported"])%list
           else
             py_bind (py_getitem md "scopes_supported") (fun scopes' =>
             py_bind (py_in "openid" scopes') (fun has_openid =>
             py_ret (append_if (negb has_openid) "Missing 'openid' scope" issues))))
          (fun issues =>
  py_bind (py_get md "subject_types_supported" (JArr [])) (fun subject_types =>
  let issues := append_if (negb (py_truthy subject_types))
                  "No subject_types_supported" issues in
  py_bind (py_get md "id_token_signing_alg_values_supported" (JArr [])) (fun algs =>
  py_bind (py_in "RS256" algs) (fun has_rs256 =>
  py_ret (append_if (negb has_rs256)
            "Missing 'RS256' in id_token_signing_alg_values_supported" issues))))))))))).

(** [ConformanceTester.test_metadata_compliance] *)
Definition test_metadata_compliance : M TestResult :=
  try_except
    (s <- get_self ;;
     if negb (py_truthy (metadata s)) then
       ret (failed "Metadata Compliance" "Discovery must pass first" JNull)
     else
       issues <- lift (compliance_issues (metadata s)) ;;
       if nonempty issues then
         ret (failed "Metadata Compliance"
                ("Found " ++ str_int (Z.of_nat (List.length issues))
                 ++ " compliance issue(s)")
                (JObj [("issues", JArr (map JStr issues))]))
       else
         response_types <- lift (py_getitem (metadata s) "response_types_supported") ;;
         grant_types <- lift (py_get (metadata s) "grant_types_supported" JNull) ;;
         scopes <- lift (py_get (metadata s) "scopes_supported" JNull) ;;
         subject_types <- lift (py_getitem (metadata s) "subject_types_supported") ;;
         ret (mkTestResult "Metadata Compliance" true
                "Metadata is OpenID Connect compliant"
                (JObj [ ("response_types", response_types);
                        ("grant_types", grant_types);
                        ("scopes", scopes);
                        ("subject_types", subject_types) ])))
    (fun x => ret (failed "Metadata Compliance" ("Failed: " ++ exn_text x) JNull)).

(** [ConformanceTester.run_all_tests]; [results[-1]] after the first append
    is the Discovery result. *)
Definition run_all_tests : M (list TestResult) :=
  let results : list TestResult := [] in
  r1 <- test_discovery ;;
  let results := (results ++ [r1])%list in
  if negb (passed r1) then ret results
  else
    r2 <- test_jwks ;;
    let results := (results ++ [r2])%list in
    r3 <- test_registration ;;
    let results := (results ++ [r3])%list in
    r4 <- test_registration_crud ;;
    let results := (results ++ [r4])%list in
    r5 <- test_metadata_compliance ;;
    let results := (results ++ [r5])%list in
    ret results.

(** ** The reporter and the entry point *)

(** Code that prints: the lines written to standard output, in order, and
    then the value, or the exception that stopped it. *)
Definition Out (A : Type) : Type := (list string * Py A)%type.

Definition out_ret {A} (a : A) : Out A := ([], inr a).
Definition out_bind {A B} (m : Out A) (k : A -> Out B) : Out B :=
  match m with
  | (l, inl x) => (l, inl x)
  | (l, inr a) => let (l', r) := k a in ((l ++ l')%list, r)
  end.
(** [print(line)]: the line is written when standard output can encode it;
    otherwise nothing of it is written and [UnicodeEncodeError] is raised. *)
Definition print (line : string) : Out unit :=
  if stdout_accepts line then ([line], inr tt)
  else ([], inl UnicodeEncodeError).
Definition out_lift {A} (p : Py A) : Out A := ([], p).

Fixpoint out_for {A} (xs : list A) (body : A -> Out unit) : Out unit :=
  match xs with
  | [] => out_ret tt
  | x :: rest => out_bind (body x) (fun _ => out_for rest body)
  end.

Fixpoint string_times (s : string) (n : nat) : string :=
  match n with
  | O => ""
  | S n' => s ++ string_times s n'
  end.

Definition nl : string := String (ascii_of_nat 10) EmptyString.
Definition rule : string := string_times "=" 70.

(** [result.details.items()] *)
Definition py_items (d : json) : Py (list (string * json)) :=
  match d with
  | JObj kv => py_ret kv
  | _ => py_raise AttributeError
  end.

(** The body of the loop over [result.details.items()]. *)
Definition print_detail (entry : string * json) : Out unit :=
  let (key, value) := entry in
  match value with
  | JObj kv =>
      out_bind (print ("       " ++ key ++ ":")) (fun _ =>
      out_for kv (fun p => print ("         - " ++ fst p ++ ": " ++ py_str (snd p))))
  | JArr l => print ("       " ++ key ++ ": " ++ join (map py_str l))
  | _ => print ("       " ++ key ++ ": " ++ py_str value)
  end.

(** The body of the loop over [results]. *)
Definition print_result (result : TestResult) : Out unit :=
  let status := if passed result then "✅ PASS" else "❌ FAIL" in
  out_bind (print (status ++ " | " ++ name result)) (fun _ =>
  out_bind (print ("       " ++ message result)) (fun _ =>
  out_bind (if py_truthy (details result) && passed result then
              out_bind (out_lift (py_items (details result))) (fun items =>
              out_for items print_detail)
            else out_ret tt) (fun _ =>
  print ""))).

Definition count_passed (results : list TestResult) : nat :=
  List.length (filter passed results).

(** [print_results] *)
Definition print_results (results : list TestResult) : Out Z :=
  out_bind (print (nl ++ rule)) (fun _ =>
  out_bind (print "OpenID Connect Conformance Validation Results") (fun _ =>
  out_bind (print (rule ++ nl)) (fun _ =>
  let passed_count := count_passed results in
  let total_count := List.length results in
  out_bind (out_for results print_result) (fun _ =>
  out_bind (print rule) (fun _ =>
  out_bind (print ("Results: " ++ str_int (Z.of_nat passed_count) ++ "/"
                   ++ str_int (Z.of_nat total_count) ++ " tests passed")) (fun _ =>
  out_bind (print (rule ++ nl)) (fun _ =>
  if (passed_count =? total_count)%nat then
    out_bind (print "🎉 All tests passed! Ready for OpenID Connect Conformance Suite.") (fun _ =>
    out_bind (print "") (fun _ =>
    out_bind (print "Next steps:") (fun _ =>
    out_bind (print "  1. Go to https://www.certification.openid.net/") (fun _ =>
    out_bind (print "  2. Create test plan: oidcc-basic-certification-test-plan") (fun _ =>
    out_bind (print "  3. Use your ngrok URL for server discovery") (fun _ =>
    out_ret 0))))))
  else
    out_bind (print "⚠️  Some tests failed. Please fix issues before conformance testing.") (fun _ =>
    out_ret 1)))))))).

(** A run of the script: what it printed, how it ended ([inr c] is
    [sys.exit(c)], [inl x] an exception nobody caught) and the exchanges it
    performed. *)
Record Run : Type := mkRun {
  stdout : list string;
  ending : Py Z;
  exchanges : list (Request * Outcome)
}.

Definition usage : list string :=
  [ "Usage: ./conformance_validator.py <ngrok-url>";
    "";
    "Example:";
    "  ./conformance_validator.py https://abc123.ngrok.io" ].

(** [main], with [sys.argv] and the provider it will meet.  [sys.exit(c)]
    ends the run with [inr c]; an exception that reaches the top ends it
    with [inl]. *)
Definition main (argv : list string) (w : World) : Run :=
  if (List.length argv <? 2)%nat then
    let (lines, r) :=
      out_bind (print "Usage: ./conformance_validator.py <ngrok-url>") (fun _ =>
      out_bind (print "") (fun _ =>
      out_bind (print "Example:") (fun _ =>
      out_bind (print "  ./conformance_validator.py https://abc123.ngrok.io") (fun _ =>
      out_ret 1)))) in
    {| stdout := lines; ending := r; exchanges := [] |}
  else
    let ngrok_url := rstrip_slash (nth 1 argv "") in
    let banner := nl ++ "🔍 Validating OIDC Provider at: " ++ ngrok_url ++ nl in
    match print banner with
    | (lines0, inl x) => {| stdout := lines0; ending := inl x; exchanges := [] |}
    | (lines0, inr _) =>
        let tester := init ngrok_url in
        match run_all_tests {| self := tester; world := w; trace := [] |} with
        | (inl x, e) => {| stdout := lines0; ending := inl x; exchanges := trace e |}
        | (inr results, e) =>
            let (lines, exit_code) := print_results results in
            {| stdout := (lines0 ++ lines)%list; ending := exit_code;
               exchanges := trace e |}
        end
    end.

(** The exit status the shell sees: an uncaught exception ends the
    interpreter with status 1. *)
Definition exit_status (r : Run) : Z :=
  match ending r with
  | inr c => c
  | inl _ => 1
  end.

(** ** Vocabulary of the properties *)

(** [m] never touches the tester (its URLs and its cached metadata). *)
Definition keeps_self {A} (m : M A) : Prop :=
  forall e, self (snd (m e)) = self e.

(** Whenever [m] returns a value, the value satisfies [P]. *)
Definition yields {A} (P : A -> Prop) (m : M A) : Prop :=
  forall e a e', m e = (inr a, e') -> P a.

(** A result carries the name of its check and, when it passed, a mapping
    as its details. *)
Definition well_formed (nm : string) (r : TestResult) : Prop :=
  name r = nm /\ (passed r = true -> exists kv, details r = JObj kv).

(** [m] returns [a], unless standard output refuses one of the texts [m]
    prints: [m] then stops with [UnicodeEncodeError]. *)
Definition prints {A} (m : Out A) (a : A) : Prop :=
  exists l,
    m = (l, inr a) \/
    (m = (l, inl UnicodeEncodeError) /\ exists s, stdout_accepts s = false).

(** The names of the five checks, in the order of the run. *)
Definition check_names : list string :=
  [ "Discovery Endpoint"; "JWKS Endpoint"; "Registration Endpoint";
    "Registration CRUD"; "Metadata Compliance" ].

(** The methods of a list of logged exchanges, in order. *)
Definition methods (steps : list (Request * Outcome)) : list Method :=
  map (fun x => rq_method (fst x)) steps.

End Validator.

(** ** A scripted provider

    A provider given by the list of the outcomes of its next exchanges; when
    the list is exhausted the connection is refused. *)

Definition scripted_send (rq : Request) (w : list Outcome) : Outcome * list Outcome :=
  match w with
  | [] => (Raised (RequestException "Connection refused"), [])
  | o :: rest => (o, rest)
  end.

Definition scripted_text (x : exn) : string :=
  match x with
  | KeyError k => "'" ++ k ++ "'"
  | TypeError => "TypeError"
  | AttributeError => "AttributeError"
  | HTTPError st => str_int st ++ " Error"
  | JSONDecodeError => "Expecting value"
  | UnicodeEncodeError => "surrogates not allowed"
  | RequestException t => t
  end.

(** Whether the bytes hold a surrogate (ED A0..BF ..), the one thing a
    UTF-8 encoder with the strict error handler refuses. *)
Fixpoint has_surrogate (s : string) : bool :=
  match s with
  | EmptyString => false
  | String c s' =>
      ((nat_of_ascii c =? 237)%nat &&
       match s' with
       | String d _ => (160 <=? nat_of_ascii d)%nat && (nat_of_ascii d <? 192)%nat
       | EmptyString => false
       end)
      || has_surrogate s'
  end.

(** A standard output in UTF-8 with the strict error handler. *)
Definition utf8_strict (s : string) : bool := negb (has_surrogate s).

Lemma utf8_strict_ascii (s : string) : is_ascii s = true -> utf8_strict s = true.
Proof.
  unfold utf8_strict. induction s as [| c s IH]; [reflexivity |].
  cbn [is_ascii has_surrogate]. intros H.
  apply andb_prop in H as [Hc Hs]. apply Nat.ltb_lt in Hc.
  replace (nat_of_ascii c =? 237)%nat with false
    by (symmetry; apply Nat.eqb_neq; lia).
  cbn [andb orb]. apply IH, Hs.
Qed.

Definition Scripted : Runtime :=
  {| World := list Outcome;
     send := scripted_send;
     py_repr := fun _ => "<container>";
     exn_text := scripted_text;
     stdout_accepts := utf8_strict;
     stdout_ascii := utf8_strict_ascii |}.

Definition ok (doc : json) : Outcome := Returned (mkResponse 200 (Some doc)).

(** ** Concrete providers *)

(** A discovery document with every required key; [jwks] is the value it
    gives to [jwks_uri]. *)
Definition discovery_doc (jwks : json) : list (string * json) :=
  [ ("issuer", JStr "https://example.org");
    ("authorization_endpoint", JStr "https://example.org/authorize");
    ("token_endpoint", JStr "https://example.org/token");
    ("jwks_uri", jwks);
    ("registration_endpoint", JStr "https://example.org/register");
    ("response_types_supported", JArr [JStr "code"]);
    ("grant_types_supported", JArr [JStr "authorization_code"]);
    ("token_endpoint_auth_methods_supported", JArr [JStr "client_secret_basic"]);
    ("scopes_supported", JArr [JStr "profile"; JStr "email"]);
    ("subject_types_supported", JArr [JStr "public"]);
    ("id_token_signing_alg_values_supported", JArr [JStr "ES256"]) ].

(** A tester for "https://example.org/" before any check has run, in front
    of the provider scripted by [w]. *)
Definition fresh_env (w : list Outcome) : @Env Scripted :=
  @mkEnv Scripted (init "https://example.org/") w [].

(** The same tester with [md] already cached. *)
Definition cached_env (md : json) (w : list Outcome) : @Env Scripted :=
  @mkEnv Scripted
    (mkTester "https://example.org"
       "https://example.org/.well-known/openid-configuration" md)
    w [].

Definition full_key : json :=
  JObj [("kty", JStr "RSA"); ("use", JStr "sig"); ("kid", JStr "k1")].
Definition key_without_kid : json :=
  JObj [("kty", JStr "RSA"); ("use", JStr "sig")].

Definition secretless_client : list (string * json) :=
  [ ("client_id", JStr "abc123");
    ("token_endpoint_auth_method", JStr "client_secret_basic") ].

Definition created_client : json :=
  JObj [ ("client_id", JStr "abc123");
         ("registration_access_token", JStr "tok") ].

Definition updated_client_one_uri : json :=
  JObj [ ("client_id", JStr "abc123");
         ("redirect_uris", JArr [JStr "https://example.com/callback"]) ].

(** ** Vocabulary of the further properties *)

Section Vocabulary.
Context {RT : Runtime}.

(** The request the Discovery check sends. *)
Definition discovery_request (s : ConformanceTester) : Request :=
  mkRequest GET (JStr (discovery_url s)) None [] 10.

(** The last character of a string, if it has one. *)
Fixpoint last_char (s : string) : option ascii :=
  match s with
  | EmptyString => None
  | String c EmptyString => Some c
  | String _ s' => last_char s'
  end.

(** A string of slashes only. *)
Fixpoint slashes (n : nat) : string :=
  match n with
  | O => ""
  | S n' => String "/" (slashes n')
  end.

(** What [md.get(k, default)] is on a mapping. *)
Definition lookup_or (default : json) (k : string) (kv : list (string * json)) : json :=
  match assoc k kv with
  | Some v => v
  | None => default
  end.

(** What [key.get(f)] is on a key that is a mapping. *)
Definition key_field (f : string) (key : json) : json :=
  match key with
  | JObj kv => lookup_or JNull f kv
  | _ => JNull
  end.

(** A key that is a mapping holding [kty], [use] and [kid]. *)
Definition complete_key (key : json) : Prop :=
  exists kv, key = JObj kv /\
    has_key "kty" kv = true /\ has_key "use" kv = true /\ has_key "kid" kv = true.

(** The six items of the compliance battery, on a metadata mapping. *)
Definition compliant (kv : list (string * json)) : Prop :=
  py_in "code" (lookup_or (JArr []) "response_types_supported" kv) = inr true /\
  py_in "authorization_code" (lookup_or (JArr []) "grant_types_supported" kv) = inr true /\
  py_truthy (lookup_or (JArr []) "token_endpoint_auth_methods_supported" kv) = true /\
  py_truthy (lookup_or JNull "scopes_supported" kv) = true /\
  py_in "openid" (lookup_or JNull "scopes_supported" kv) = inr true /\
  py_truthy (lookup_or (JArr []) "subject_types_supported" kv) = true /\
  py_in "RS256" (lookup_or (JArr []) "id_token_signing_alg_values_supported" kv) = inr true.

(** The URL and the credential of the Read, Update and Delete sub-steps. *)
Definition client_url (reg_endpoint client_id : json) : json :=
  JStr (py_str reg_endpoint ++ "/" ++ py_str client_id).

(** Every request of a list of logged exchanges has the fixed timeout. *)
Definition all_bounded (steps : list (Request * Outcome)) : Prop :=
  Forall (fun x => rq_timeout (fst x) = 10) steps.

(** [m] adds at most [n] exchanges to the log, each with the fixed timeout. *)
Definition emits {A} (n : nat) (m : M A) : Prop :=
  forall e, exists steps,
    trace (snd (m e)) = (trace e ++ steps)%list /\
    (List.length steps <= n)%nat /\
    all_bounded steps.

(** The issue of one battery item: its message when the item is violated. *)
Definition issue_if (violated : bool) (msg : string) : list string :=
  if violated then [msg] else [].

(** The issues list the battery is to end with, item by item and in the
    order of the battery, from what each item found: whether "code",
    "authorization_code", "openid" and "RS256" are among their values, and
    whether the auth methods, the scopes and the subject types are present
    and non-empty.  The scopes item reports their absence, or else a missing
    "openid". *)
Definition battery_issues
    (has_code has_grant auth_methods scopes has_openid subject_types has_rs256 : bool)
    : list string :=
  (issue_if (negb has_code) "Missing 'code' in response_types_supported" ++
   issue_if (negb has_grant) "Missing 'authorization_code' in grant_types_supported" ++
   issue_if (negb auth_methods) "No token_endpoint_auth_methods_supported" ++
   (if scopes then issue_if (negb has_openid) "Missing 'openid' scope"
    else ["No scopes_supported"]) ++
   issue_if (negb subject_types) "No subject_types_supported" ++
   issue_if (negb has_rs256)
     "Missing 'RS256' in id_token_signing_alg_values_supported")%list.

(** The same list on a metadata mapping, where presence is read off the
    mapping. *)
Definition expected_issues (kv : list (string * json))
    (has_code has_grant has_openid has_rs256 : bool) : list string :=
  battery_issues has_code has_grant
    (py_truthy (lookup_or (JArr []) "token_endpoint_auth_methods_supported" kv))
    (py_truthy (lookup_or JNull "scopes_supported" kv))
    has_openid
    (py_truthy (lookup_or (JArr []) "subject_types_supported" kv))
    has_rs256.

(** *** The sub-steps of the Registration-CRUD check, as the design states
    them

    What a sub-step reads of the answer to its request: the parsed document,
    or the exception that stands for a transport failure (a raised exchange,
    an HTTP error status, a body that does not parse). *)
Definition fetched (o : Outcome) : Py json :=
  match o with
  | Raised x => inl x
  | Returned r => py_bind (raise_for_status r) (fun _ => resp_json r)
  end.

(** The message of a failure caught at the boundary of a check. *)
Definition caught (x : exn) : string := "Failed: " ++ exn_text x.

(** Create: the answer must be a document with a [client_id] and a usable
    [registration_access_token]. *)
Definition create_failure (o : Outcome) : option string :=
  match fetched o with
  | inl x => Some (caught x)
  | inr client =>
      match py_getitem client "client_id" with
      | inl x => Some (caught x)
      | inr _ =>
          match py_get client "registration_access_token" JNull with
          | inl x => Some (caught x)
          | inr token =>
              if py_truthy token then None
              else Some "No registration_access_token in response"
          end
      end
  end.

(** Read: the answer must be a document whose [client_id] equals the one
    created. *)
Definition read_failure (client_id : json) (o : Outcome) : option string :=
  match fetched o with
  | inl x => Some (caught x)
  | inr retrieved =>
      match py_getitem retrieved "client_id" with
      | inl x => Some (caught x)
      | inr retrieved_id =>
          if py_eq retrieved_id client_id then None
          else Some "Retrieved client_id mismatch"
      end
  end.

(** Update: the answer must be a document whose [redirect_uris] has length
    exactly 2. *)
Definition update_failure (o : Outcome) : option string :=
  match fetched o with
  | inl x => Some (caught x)
  | inr updated =>
      match py_getitem updated "redirect_uris" with
      | inl x => Some (caught x)
      | inr uris =>
          match py_len uris with
          | inl x => Some (caught x)
          | inr n =>
              if (n =? 2)%nat then None else Some "Client update failed"
          end
      end
  end.

(** Delete: the exchange must return, with status exactly 204. *)
Definition delete_failure (o : Outcome) : option string :=
  match o with
  | Raised x => Some (caught x)
  | Returned r =>
      if status_code r =? 204 then None
      else Some ("Delete returned " ++ str_int (status_code r) ++ ", expected 204")
  end.

(** The result of the check when no sub-step failed. *)
Definition crud_success : TestResult :=
  mkTestResult "Registration CRUD" true "All CRUD operations successful"
    (JObj [ ("create", JStr "✓"); ("read", JStr "✓");
            ("update", JStr "✓"); ("delete", JStr "✓") ]).

End Vocabulary.

(** ** Further concrete providers *)

(** A discovery document with the seven required keys and nothing else. *)
Definition minimal_doc : list (string * json) :=
  [ ("issuer", JStr "https://example.org");
    ("authorization_endpoint", JStr "https://example.org/authorize");
    ("token_endpoint", JStr "https://example.org/token");
    ("jwks_uri", JStr "https://example.org/jwks");
    ("response_types_supported", JArr [JStr "code"]);
    ("subject_types_supported", JArr [JStr "public"]);
    ("id_token_signing_alg_values_supported", JArr [JStr "RS256"]) ].

(** A document that lacks [token_endpoint] and [jwks_uri], names a foreign
    issuer and lists its keys in another order. *)
Definition short_doc : list (string * json) :=
  [ ("id_token_signing_alg_values_supported", JArr [JStr "RS256"]);
    ("issuer", JStr "https://elsewhere.example");
    ("authorization_endpoint", JStr "https://example.org/authorize");
    ("response_types_supported", JArr [JStr "code"]);
    ("subject_types_supported", JArr [JStr "public"]) ].

(** Metadata that satisfies the whole compliance battery. *)
Definition compliant_doc : list (string * json) :=
  minimal_doc ++
  [ ("registration_endpoint", JStr "https://example.org/register");
    ("grant_types_supported", JArr [JStr "authorization_code"]);
    ("token_endpoint_auth_methods_supported", JArr [JStr "client_secret_basic"]);
    ("scopes_supported", JArr [JStr "openid"; JStr "profile"]) ].

Definition key_with_alg : json :=
  JObj [ ("kty", JStr "EC"); ("use", JStr "sig"); ("kid", JStr "k2");
         ("alg", JStr "ES256") ].

Definition confidential_client : list (string * json) :=
  [ ("client_id", JStr "0123456789abcdef");
    ("client_secret", JStr "s3cret");
    ("token_endpoint_auth_method", JStr "client_secret_basic") ].

Definition client_without_id : list (string * json) :=
  [ ("registration_access_token", JStr "tok") ].

(** The string of the single character U+D800, a lone surrogate, as the JSON
    text ["\ud800"] delivers it. *)
Definition lone_surrogate : string :=
  String (ascii_of_nat 237) (String (ascii_of_nat 160) (String (ascii_of_nat 128) "")).

(** A provider that passes every check and names an authorization endpoint
    standard output cannot encode. *)
Definition surrogate_doc : list (string * json) :=
  [ ("issuer", JStr "https://example.org");
    ("authorization_endpoint", JStr lone_surrogate);
    ("token_endpoint", JStr "https://example.org/token");
    ("jwks_uri", JStr "https://example.org/jwks");
    ("registration_endpoint", JStr "https://example.org/register");
    ("response_types_supported", JArr [JStr "code"]);
    ("grant_types_supported", JArr [JStr "authorization_code"]);
    ("token_endpoint_auth_methods_supported", JArr [JStr "client_secret_basic"]);
    ("scopes_supported", JArr [JStr "openid"]);
    ("subject_types_supported", JArr [JStr "public"]);
    ("id_token_signing_alg_values_supported", JArr [JStr "RS256"]) ].

Definition surrogate_provider : list Outcome :=
  [ ok (JObj surrogate_doc);
    ok (JObj [("keys", JArr [full_key; key_with_alg])]);
    ok (JObj confidential_client);
    ok created_client;
    ok created_client;
    ok (JObj [("redirect_uris", JArr [JStr "a"; JStr "b"])]);
    Returned (mkResponse 204 None) ].

(** * Properties *)

Section Properties.
Context {RT : Runtime}.

(** ** Reasoning rules for [M] *)

Lemma keeps_ret {A} (a : A) : keeps_self (ret a).
Proof. intros e. reflexivity. Qed.

Lemma keeps_lift {A} (p : Py A) : keeps_self (lift p).
Proof. intros e. reflexivity. Qed.

Lemma keeps_get_self : keeps_self get_self.
Proof. intros e. reflexivity. Qed.

Lemma keeps_request rq : keeps_self (request rq).
Proof. intros e. unfold request. destruct (send rq (world e)). reflexivity. Qed.

Lemma keeps_bind {A B} (m : M A) (k : A -> M B) :
  keeps_self m -> (forall a, keeps_self (k a)) -> keeps_self (bind m k).
Proof.
  intros Hm Hk e. unfold bind. specialize (Hm e).
  destruct (m e) as [[x | a] e1]; simpl in *; [assumption |].
  rewrite Hk. assumption.
Qed.

Lemma keeps_try {A} (body : M A) (handler : exn -> M A) :
  keeps_self body -> (forall x, keeps_self (handler x)) ->
  keeps_self (try_except body handler).
Proof.
  intros Hb Hh e. unfold try_except. specialize (Hb e).
  destruct (body e) as [[x | a] e1]; simpl in *; [| assumption].
  rewrite Hh. assumption.
Qed.

Lemma yields_ret {A} (P : A -> Prop) (a : A) : P a -> yields P (ret a).
Proof. intros H e a' e' E. inversion E. subst. assumption. Qed.

Lemma yields_bind {A B} (P : B -> Prop) (m : M A) (k : A -> M B) :
  (forall a, yields P (k a)) -> yields P (bind m k).
Proof.
  intros Hk e b e' E. unfold bind in E.
  destruct (m e) as [[x | a] e1]; [discriminate |].
  eapply Hk. eassumption.
Qed.

Lemma yields_try {A} (P : A -> Prop) (body : M A) (handler : exn -> M A) :
  yields P body -> (forall x, yields P (handler x)) ->
  yields P (try_except body handler).
Proof.
  intros Hb Hh e a e' E. unfold try_except in E.
  destruct (body e) as [[x | a0] e1] eqn:Eb.
  - eapply Hh. eassumption.
  - inversion E. subst. eapply Hb. eassumption.
Qed.

Lemma yields_bind_lift {A B} (P : B -> Prop) (p : Py A) (k : A -> M B) :
  (forall a, p = inr a -> yields P (k a)) -> yields P (bind (lift p) k).
Proof.
  intros Hk e b e' E. unfold bind, lift in E.
  destruct p as [x | a]; [discriminate |].
  eapply Hk; [reflexivity | eassumption].
Qed.

(** A [try] whose handler returns a result always returns one. *)
Lemma try_except_returns {A} (body : M A) (h : exn -> A) (e : Env) :
  exists a e', try_except body (fun x => ret (h x)) e = (inr a, e').
Proof.
  unfold try_except, ret. destruct (body e) as [[x | a] e1]; eauto.
Qed.

Ltac keeps :=
  repeat first
    [ apply keeps_ret | apply keeps_lift | apply keeps_get_self
    | apply keeps_request
    | apply keeps_try; [| intro]
    | apply keeps_bind; [| intro]
    | match goal with
      | |- keeps_self (if ?b then _ else _) => destruct b
      | |- keeps_self (match ?x with _ => _ end) => destruct x
      end
    | progress cbv zeta ].

Ltac yielding :=
  repeat first
    [ apply yields_try; [| intro]
    | apply yields_bind_lift; intros ? ?
    | apply yields_bind; intro
    | apply yields_ret
    | match goal with
      | |- yields _ (if ?b then _ else _) => destruct b
      | |- yields _ (match ?x with _ => _ end) => destruct x eqn:?
      end
    | progress cbv zeta ].

Lemma test_jwks_keeps : keeps_self test_jwks.
Proof. unfold test_jwks, requests_get. keeps. Qed.

Lemma test_registration_keeps : keeps_self test_registration.
Proof. unfold test_registration, registered, requests_post. keeps. Qed.

Lemma test_registration_crud_keeps : keeps_self test_registration_crud.
Proof.
  unfold test_registration_crud, requests_post, requests_get, requests_put,
    requests_delete.
  keeps.
Qed.

Lemma test_metadata_compliance_keeps : keeps_self test_metadata_compliance.
Proof. unfold test_metadata_compliance. keeps. Qed.

(** ** The shape of the results *)

Lemma failed_well_formed nm msg d : well_formed nm (failed nm msg d).
Proof. split; [reflexivity | discriminate]. Qed.

Lemma passed_well_formed nm msg kv :
  well_formed nm (mkTestResult nm true msg (JObj kv)).
Proof. split; [reflexivity | intros _; simpl; eauto]. Qed.

Lemma check_keys_stops (keys : list json) : forall i r,
  check_keys i keys = inr (Some r) ->
  exists j missing,
    r = failed "JWKS Endpoint"
          ("Key " ++ str_int (Z.of_nat j) ++ " missing fields: " ++ join missing)
          JNull.
Proof.
  induction keys as [| key rest IH]; intros i r H; cbn [check_keys] in H.
  - discriminate.
  - destruct (missing_fields required_key_fields key) as [x | missing];
      cbn [py_bind] in H; [discriminate |].
    destruct (nonempty missing).
    + injection H as <-. exists i, missing. reflexivity.
    + eapply IH. eassumption.
Qed.

Ltac shape :=
  yielding;
  try solve [ apply failed_well_formed | apply passed_well_formed ].

Lemma test_discovery_shape : yields (well_formed "Discovery Endpoint") test_discovery.
Proof. unfold test_discovery. shape. Qed.

Lemma test_jwks_shape : yields (well_formed "JWKS Endpoint") test_jwks.
Proof.
  unfold test_jwks. shape.
  match goal with H : check_keys _ _ = _ |- _ => apply check_keys_stops in H as (j & m & ->) end.
  apply failed_well_formed.
Qed.

Lemma test_registration_shape :
  yields (well_formed "Registration Endpoint") test_registration.
Proof. unfold test_registration, registered. shape. Qed.

Lemma test_registration_crud_shape :
  yields (well_formed "Registration CRUD") test_registration_crud.
Proof. unfold test_registration_crud. shape. Qed.

Lemma test_metadata_compliance_shape :
  yields (well_formed "Metadata Compliance") test_metadata_compliance.
Proof. unfold test_metadata_compliance. shape. Qed.

(** Every check returns a result: nothing escapes its [try]. *)
Lemma test_discovery_returns e : exists r e', test_discovery e = (inr r, e').
Proof. apply try_except_returns. Qed.
Lemma test_jwks_returns e : exists r e', test_jwks e = (inr r, e').
Proof. apply try_except_returns. Qed.
Lemma test_registration_returns e : exists r e', test_registration e = (inr r, e').
Proof. apply try_except_returns. Qed.
Lemma test_registration_crud_returns e :
  exists r e', test_registration_crud e = (inr r, e').
Proof. apply try_except_returns. Qed.
Lemma test_metadata_compliance_returns e :
  exists r e', test_metadata_compliance e = (inr r, e').
Proof. apply try_except_returns. Qed.

(** The run of the pipeline, spelled out. *)
Lemma run_all_tests_unfold (e : Env) :
  exists r1 e1,
    test_discovery e = (inr r1, e1) /\
    (passed r1 = false -> run_all_tests e = (inr [r1], e1)) /\
    (passed r1 = true ->
     exists r2 e2 r3 e3 r4 e4 r5 e5,
       test_jwks e1 = (inr r2, e2) /\
       test_registration e2 = (inr r3, e3) /\
       test_registration_crud e3 = (inr r4, e4) /\
       test_metadata_compliance e4 = (inr r5, e5) /\
       run_all_tests e = (inr [r1; r2; r3; r4; r5], e5)).
Proof.
  destruct (test_discovery_returns e) as (r1 & e1 & E1).
  exists r1, e1. split; [assumption |]. split; intros Hp.
  - unfold run_all_tests, bind. rewrite E1, Hp. reflexivity.
  - destruct (test_jwks_returns e1) as (r2 & e2 & E2).
    destruct (test_registration_returns e2) as (r3 & e3 & E3).
    destruct (test_registration_crud_returns e3) as (r4 & e4 & E4).
    destruct (test_metadata_compliance_returns e4) as (r5 & e5 & E5).
    exists r2, e2, r3, e3, r4, e4, r5, e5.
    repeat (split; [assumption |]).
    unfold run_all_tests, bind. rewrite E1, Hp. simpl.
    rewrite E2, E3, E4, E5. reflexivity.
Qed.

(** ** The reporter *)

Lemma prints_ret {A} (a : A) : prints (out_ret a) a.
Proof. eexists. left. reflexivity. Qed.

Lemma prints_print (line : string) : prints (print line) tt.
Proof.
  unfold print. destruct (stdout_accepts line) eqn:H; eexists.
  - left. reflexivity.
  - right. split; [reflexivity | eauto].
Qed.

Lemma prints_bind {A B} (m : Out A) (k : A -> Out B) (a : A) (b : B) :
  prints m a -> prints (k a) b -> prints (out_bind m k) b.
Proof.
  intros (l & [-> | (-> & Hs)]) (l' & Hk); unfold out_bind.
  - destruct Hk as [-> | (-> & Hs)]; eexists; [left | right]; eauto.
  - eexists. right. eauto.
Qed.

Lemma prints_for {A} (body : A -> Out unit) (xs : list A) :
  (forall x, In x xs -> prints (body x) tt) -> prints (out_for xs body) tt.
Proof.
  induction xs as [| x rest IH]; intros H; cbn [out_for].
  - apply prints_ret.
  - eapply prints_bind.
    + apply H. left. reflexivity.
    + apply IH. intros y Hy. apply H. right. assumption.
Qed.

Lemma print_ascii (line : string) :
  is_ascii line = true -> print line = ([line], inr tt).
Proof. intros H. unfold print. rewrite (stdout_ascii line H). reflexivity. Qed.

Lemma print_detail_prints entry : prints (print_detail entry) tt.
Proof.
  destruct entry as [key value].
  destruct value; unfold print_detail; try apply prints_print.
  eapply prints_bind; [apply prints_print |].
  apply prints_for. intros x _. apply prints_print.
Qed.

Lemma print_result_prints nm r : well_formed nm r -> prints (print_result r) tt.
Proof.
  intros [_ Hd]. unfold print_result.
  eapply prints_bind; [apply prints_print |].
  eapply prints_bind; [apply prints_print |].
  eapply prints_bind; [| apply prints_print].
  destruct (py_truthy (details r) && passed r) eqn:Ht; [| apply prints_ret].
  apply andb_prop in Ht as [_ Hp]. destruct (Hd Hp) as (kv & ->).
  eapply prints_bind with (a := kv).
  - eexists. left. reflexivity.
  - apply prints_for. intros x _. apply print_detail_prints.
Qed.

Lemma count_passed_all (results : list TestResult) :
  (count_passed results =? List.length results)%nat = forallb passed results.
Proof.
  assert (Hle : forall rs, (count_passed rs <= List.length rs)%nat).
  { intros rs. unfold count_passed. apply filter_length_le. }
  induction results as [| r rest IH]; [reflexivity |].
  unfold count_passed in *. simpl. destruct (passed r); simpl.
  - exact IH.
  - apply Nat.eqb_neq. specialize (Hle rest). unfold count_passed in Hle. lia.
Qed.

(** [print_results] on well-formed results returns 0 exactly when every
    result passed, and 1 otherwise; nothing but a refused [print] stops it. *)
Lemma print_results_returns (results : list TestResult) :
  (forall r, In r results -> exists nm, well_formed nm r) ->
  prints (print_results results) (if forallb passed results then 0 else 1).
Proof.
  intros Hwf. unfold print_results.
  do 3 (eapply prints_bind; [apply prints_print |]).
  eapply prints_bind.
  { apply prints_for. intros r Hr. destruct (Hwf r Hr) as (nm & H).
    eapply print_result_prints, H. }
  do 3 (eapply prints_bind; [apply prints_print |]).
  rewrite count_passed_all.
  destruct (forallb passed results).
  - do 6 (eapply prints_bind; [apply prints_print |]). apply prints_ret.
  - eapply prints_bind; [apply prints_print |]. apply prints_ret.
Qed.

Lemma some_failed_iff (results : list TestResult) :
  forallb passed results = false <-> exists r, In r results /\ passed r = false.
Proof.
  induction results as [| r rest IH]; cbn [forallb].
  - split; [discriminate | intros (r & [] & _)].
  - split.
    + intros H. apply andb_false_iff in H as [H | H].
      * exists r. split; [left; reflexivity | exact H].
      * apply IH in H as (r' & Hin & Hr'). exists r'. split; [right |]; assumption.
    + intros (r' & [<- | Hin] & Hr'); apply andb_false_iff.
      * left. exact Hr'.
      * right. apply IH. eauto.
Qed.

(** ** The orchestrator *)

(** C1. The gate of [run_all_tests]: from every state the run returns a
    list of results; when the Discovery check fails the list is that one
    result and has length 1; when it passes the list has length 5, starts
    with the Discovery result and carries the five check names in order,
    whatever the four later checks report. *)
Theorem run_all_tests_gate (e : Env) :
  exists r1 e1 results e',
    test_discovery e = (inr r1, e1) /\
    run_all_tests e = (inr results, e') /\
    (passed r1 = false -> results = [r1] /\ List.length results = 1%nat) /\
    (passed r1 = true ->
     List.length results = 5%nat /\
     hd_error results = Some r1 /\
     map name results = check_names).
Proof.
  destruct (run_all_tests_unfold e) as (r1 & e1 & E1 & Hfail & Hpass).
  destruct (passed r1) eqn:Hp.
  - destruct (Hpass eq_refl)
      as (r2 & e2 & r3 & e3 & r4 & e4 & r5 & e5 & E2 & E3 & E4 & E5 & Erun).
    exists r1, e1, [r1; r2; r3; r4; r5], e5.
    split; [assumption |]. split; [assumption |].
    split; [congruence |]. intros _.
    split; [reflexivity |]. split; [reflexivity |].
    apply test_discovery_shape in E1 as [N1 _].
    apply test_jwks_shape in E2 as [N2 _].
    apply test_registration_shape in E3 as [N3 _].
    apply test_registration_crud_shape in E4 as [N4 _].
    apply test_metadata_compliance_shape in E5 as [N5 _].
    simpl. rewrite N1, N2, N3, N4, N5. reflexivity.
  - exists r1, e1, [r1], e1.
    split; [assumption |]. split; [auto |].
    split; [auto | congruence].
Qed.

(** C9. The cached metadata is written by the Discovery check only: each of
    the four later checks ends with the tester it started from, cached
    metadata included, and a whole run ends with the metadata the Discovery
    check left. *)
Theorem metadata_write_once (e : Env) :
  self (snd (test_jwks e)) = self e /\
  self (snd (test_registration e)) = self e /\
  self (snd (test_registration_crud e)) = self e /\
  self (snd (test_metadata_compliance e)) = self e /\
  metadata (self (snd (run_all_tests e))) =
    metadata (self (snd (test_discovery e))).
Proof.
  repeat split.
  - apply test_jwks_keeps.
  - apply test_registration_keeps.
  - apply test_registration_crud_keeps.
  - apply test_metadata_compliance_keeps.
  - destruct (run_all_tests_unfold e) as (r1 & e1 & E1 & Hfail & Hpass).
    rewrite E1. simpl.
    destruct (passed r1) eqn:Hp.
    + destruct (Hpass eq_refl)
        as (r2 & e2 & r3 & e3 & r4 & e4 & r5 & e5 & E2 & E3 & E4 & E5 & Erun).
      rewrite Erun. simpl.
      pose proof (test_jwks_keeps e1) as K2. rewrite E2 in K2.
      pose proof (test_registration_keeps e2) as K3. rewrite E3 in K3.
      pose proof (test_registration_crud_keeps e3) as K4. rewrite E4 in K4.
      pose proof (test_metadata_compliance_keeps e4) as K5. rewrite E5 in K5.
      simpl in *. congruence.
    + rewrite (Hfail eq_refl). reflexivity.
Qed.

(** The usage text is written whatever the encoding of standard output. *)
Lemma main_usage (argv : list string) (w : World) :
  (List.length argv < 2)%nat ->
  main argv w = {| stdout := usage; ending := inr 1; exchanges := [] |}.
Proof.
  intros Hlen. unfold main. apply Nat.ltb_lt in Hlen. rewrite Hlen.
  unfold out_bind. rewrite !print_ascii by reflexivity. reflexivity.
Qed.

(** How a run with its argument ends: with the exit code [print_results]
    returns, unless standard output refused a text on the way. *)
Lemma main_ending (argv : list string) (w : World) :
  (2 <= List.length argv)%nat ->
  exists results e',
    run_all_tests
      {| self := init (rstrip_slash (nth 1 argv "")); world := w; trace := [] |}
      = (inr results, e') /\
    (forall r, In r results -> exists nm, well_formed nm r) /\
    ((exists r1, results = [r1] /\ passed r1 = false) \/
     List.length results = 5%nat) /\
    (ending (main argv w) = inr (if forallb passed results then 0 else 1) \/
     (ending (main argv w) = inl UnicodeEncodeError /\
      exists s, stdout_accepts s = false)).
Proof.
  intros Hlen.
  set (e := {| self := init (rstrip_slash (nth 1 argv "")); world := w; trace := [] |}).
  destruct (run_all_tests_unfold e) as (r1 & e1 & E1 & Hfail & Hpass).
  assert (Hrun : exists results e',
             run_all_tests e = (inr results, e') /\
             (forall r, In r results -> exists nm, well_formed nm r) /\
             ((exists r1, results = [r1] /\ passed r1 = false) \/
              List.length results = 5%nat)).
  { apply test_discovery_shape in E1 as W1.
    destruct (passed r1) eqn:Hp.
    - destruct (Hpass eq_refl)
        as (r2 & e2 & r3 & e3 & r4 & e4 & r5 & e5 & E2 & E3 & E4 & E5 & Erun).
      exists [r1; r2; r3; r4; r5], e5.
      split; [assumption |]. split; [| right; reflexivity].
      apply test_jwks_shape in E2. apply test_registration_shape in E3.
      apply test_registration_crud_shape in E4.
      apply test_metadata_compliance_shape in E5.
      intros r [<- | [<- | [<- | [<- | [<- | []]]]]]; eauto.
    - exists [r1], e1. split; [auto |]. split; [| left; eauto].
      intros r [<- | []]; eauto. }
  destruct Hrun as (results & e' & Erun & Hwf & Hshape).
  exists results, e'. repeat (split; [assumption |]).
  unfold main. apply Nat.ltb_ge in Hlen. rewrite Hlen.
  unfold print.
  destruct (stdout_accepts _) eqn:Hb.
  2:{ right. split; [reflexivity | eauto]. }
  fold e. rewrite Erun.
  destruct (print_results_returns results Hwf) as (lines & [-> | (-> & Hs)]).
  - left. reflexivity.
  - right. split; [reflexivity | exact Hs].
Qed.


(** ** Running a check by hand *)

Ltac exec :=
  cbv [ try_except bind lift ret get_self set_metadata request
        requests_get requests_post requests_put requests_delete
        py_bind py_ret py_raise ].

Lemma py_eq_str (v : json) (s : string) : py_eq v (JStr s) = true <-> v = JStr s.
Proof.
  destruct v; simpl; split; intros H; try discriminate.
  - apply String.eqb_eq in H. congruence.
  - inversion H. apply String.eqb_refl.
Qed.

(** ** The Registration check *)

(** C5. A registration response that is a mapping with [client_id], whose
    [token_endpoint_auth_method] is anything but the string "none" (absent
    included) and which has no [client_secret], fails the check with the
    message of the confidential client without a secret, the response
    attached; it is not reported as a response with missing fields. *)
Theorem registration_requires_secret
    (e : Env) (endpoint : json) (resp : Response) (w' : World)
    (client : list (string * json)) :
  py_truthy (metadata (self e)) = true ->
  py_get (metadata (self e)) "registration_endpoint" JNull = inr endpoint ->
  py_truthy endpoint = true ->
  send (mkRequest POST endpoint (Some registration_payload)
          [("Content-Type", "application/json")] 10) (world e)
    = (Returned resp, w') ->
  raise_for_status resp = inr tt ->
  resp_json resp = inr (JObj client) ->
  has_key "client_id" client = true ->
  assoc "token_endpoint_auth_method" client <> Some (JStr "none") ->
  has_key "client_secret" client = false ->
  fst (test_registration e) =
    inr (failed "Registration Endpoint"
           "Missing client_secret for confidential client" (JObj client)).
Proof.
  intros Hmd Hreg Hep Hsend Hst Hjson Hid Hauth Hsec.
  unfold test_registration. exec.
  rewrite Hmd. cbn [negb]. rewrite Hreg, Hep. cbn [negb]. rewrite Hsend, Hst, Hjson.
  unfold required_resp_fields.
  cbn [missing_fields py_in py_bind py_ret py_get]. rewrite Hid, Hsec.
  assert (Hne : py_eq (match assoc "token_endpoint_auth_method" client with
                       | Some v => v
                       | None => JNull
                       end) (JStr "none") = false).
  { apply not_true_iff_false. intros H. apply py_eq_str in H. apply Hauth.
    destruct (assoc "token_endpoint_auth_method" client); [congruence | discriminate]. }
  cbn [nonempty]. rewrite Hne. reflexivity.
Qed.
(** ** The Discovery check *)

Lemma missing_fields_obj (required : list string) (kv : list (string * json)) :
  missing_fields required (JObj kv) =
    inr (filter (fun f => negb (has_key f kv)) required).
Proof.
  induction required as [| f rest IH]; [reflexivity |].
  cbn [missing_fields py_in py_bind py_ret]. rewrite IH.
  cbn [py_bind py_ret filter]. destruct (has_key f kv); reflexivity.
Qed.

Lemma filter_nil_iff {A} (p : A -> bool) (l : list A) :
  filter p l = [] <-> forall x, In x l -> p x = false.
Proof.
  induction l as [| a l IH]; simpl.
  - split; [intros _ x [] | reflexivity].
  - destruct (p a) eqn:Ha; split; intros H.
    + discriminate.
    + specialize (H a (or_introl eq_refl)). congruence.
    + intros x [<- | Hx]; [assumption | apply IH; assumption].
    + apply IH. intros x Hx. apply H. right. assumption.
Qed.

Lemma nonempty_false {A} (l : list A) : nonempty l = false <-> l = [].
Proof. destruct l; simpl; split; intros H; congruence. Qed.

Lemma py_getitem_inr (c : json) (k : string) (v : json) :
  py_getitem c k = inr v -> exists kv, c = JObj kv /\ assoc k kv = Some v.
Proof.
  destruct c; simpl; try discriminate.
  destruct (assoc k fields) eqn:E; [| discriminate].
  intros H. inversion H. subst. eauto.
Qed.

Lemma prefixes_apart (s : string) :
  String.prefix "Issuer mismatch: " s && String.prefix "Missing required fields: " s = false.
Proof.
  destruct s as [| a s]; [reflexivity |].
  cbn [String.prefix].
  destruct (ascii_dec "I" a) as [<- | Hn]; [| reflexivity].
  destruct (ascii_dec "M" "I") as [C | _]; [discriminate C |].
  apply andb_false_r.
Qed.

(** C6. The two named failures of the Discovery check exclude each other.
    The check always returns a result.  If its message is the issuer
    mismatch, the cached document is a mapping that has all seven required
    keys and whose issuer differs from the base URL: the comparison is only
    reached past the missing-fields test.  If its message is the
    missing-fields one, the list of missing keys is not empty and is what
    the message names.  No message is both. *)
Theorem discovery_failures_exclusive (e : Env) :
  exists r e',
    test_discovery e = (inr r, e') /\
    (String.prefix "Issuer mismatch: " (message r) = true ->
     exists doc issuer,
       metadata (self e') = JObj doc /\
       (forall f, In f required_fields -> has_key f doc = true) /\
       assoc "issuer" doc = Some issuer /\
       issuer <> JStr (ngrok_url (self e)) /\
       message r = "Issuer mismatch: " ++ py_str issuer ++ " != " ++ ngrok_url (self e)) /\
    (String.prefix "Missing required fields: " (message r) = true ->
     exists missing,
       missing_fields required_fields (metadata (self e')) = inr missing /\
       missing <> [] /\
       message r = "Missing required fields: " ++ join missing) /\
    String.prefix "Issuer mismatch: " (message r)
      && String.prefix "Missing required fields: " (message r) = false.
Proof.
  assert (Hfailed : forall x : exn,
            (String.prefix "Issuer mismatch: " ("Failed: " ++ exn_text x) = false) /\
            (String.prefix "Missing required fields: " ("Failed: " ++ exn_text x) = false)).
  { intros x. split; reflexivity. }
  unfold test_discovery. exec.
  destruct (send _ (world e)) as [[x | resp] w'].
  { do 2 eexists. split; [reflexivity |]. cbn [message failed].
    destruct (Hfailed x) as [-> ->]. repeat split; discriminate. }
  destruct (raise_for_status resp) as [x | []].
  { do 2 eexists. split; [reflexivity |]. cbn [message failed].
    destruct (Hfailed x) as [-> ->]. repeat split; discriminate. }
  destruct (resp_json resp) as [x | doc].
  { do 2 eexists. split; [reflexivity |]. cbn [message failed].
    destruct (Hfailed x) as [-> ->]. repeat split; discriminate. }
  cbn [self metadata ngrok_url discovery_url].
  destruct (missing_fields required_fields doc) as [x | missing] eqn:Hmiss.
  { do 2 eexists. split; [reflexivity |]. cbn [message failed].
    destruct (Hfailed x) as [-> ->]. repeat split; discriminate. }
  destruct (nonempty missing) eqn:Hne.
  { (* the missing-fields failure *)
    do 2 eexists. split; [reflexivity |]. cbn [message failed self metadata].
    split; [intros H; simpl in H; discriminate H |]. split; [| reflexivity].
    intros _. exists missing. split; [assumption |]. split; [| reflexivity].
    intros ->. discriminate Hne. }
  apply nonempty_false in Hne. subst missing.
  destruct (py_getitem doc "issuer") as [x | issuer] eqn:Hiss.
  { do 2 eexists. split; [reflexivity |]. cbn [message failed].
    destruct (Hfailed x) as [-> ->]. repeat split; discriminate. }
  apply py_getitem_inr in Hiss as (kv & -> & Hiss).
  rewrite missing_fields_obj in Hmiss.
  assert (Hall : filter (fun f => negb (has_key f kv)) required_fields = [])
    by congruence.
  clear Hmiss.
  destruct (py_eq issuer (JStr (ngrok_url (self e)))) eqn:Heq; cbn [negb].
  2:{ (* the issuer mismatch *)
    do 2 eexists. split; [reflexivity |]. cbn [message failed self metadata].
    split; [| split; [intros H; simpl in H; discriminate H | apply prefixes_apart]].
    intros _. exists kv, issuer. split; [reflexivity |].
    split.
    { intros f Hf. pose proof (proj1 (filter_nil_iff _ _) Hall f Hf) as Hp.
      cbv beta in Hp. apply negb_false_iff in Hp. exact Hp. }
    split; [assumption |]. split; [| reflexivity].
    intros ->. simpl in Heq. rewrite String.eqb_refl in Heq. discriminate. }
  cbn [py_getitem py_get].
  destruct (assoc "authorization_endpoint" kv).
  2:{ do 2 eexists. split; [reflexivity |]. cbn [message failed].
      destruct (Hfailed (KeyError "authorization_endpoint")) as [-> ->].
      repeat split; discriminate. }
  destruct (assoc "token_endpoint" kv).
  2:{ do 2 eexists. split; [reflexivity |]. cbn [message failed].
      destruct (Hfailed (KeyError "token_endpoint")) as [-> ->].
      repeat split; discriminate. }
  destruct (assoc "jwks_uri" kv).
  2:{ do 2 eexists. split; [reflexivity |]. cbn [message failed].
      destruct (Hfailed (KeyError "jwks_uri")) as [-> ->].
      repeat split; discriminate. }
  do 2 eexists. split; [reflexivity |]. cbn [message].
  repeat split; discriminate.
Qed.
Lemma all_present_no_missing (kv : list (string * json)) (required : list string) :
  (forall f, In f required -> has_key f kv = true) ->
  missing_fields required (JObj kv) = inr [].
Proof.
  intros H. rewrite missing_fields_obj. f_equal.
  apply filter_nil_iff. intros f Hf. rewrite (H f Hf). reflexivity.
Qed.

Lemma has_key_assoc (k : string) (kv : list (string * json)) :
  has_key k kv = true -> exists v, assoc k kv = Some v.
Proof. unfold has_key. destruct (assoc k kv); [eauto | discriminate]. Qed.

(** C7. The issuer is compared with the base URL as [__init__] keeps it,
    trailing slashes stripped.  For a tester built from [url] that receives
    a discovery document with all seven required keys, the check passes
    exactly when the issuer is the string [url.rstrip('/')]: with the base
    URL "https://example.org/" the issuer "https://example.org" passes. *)
Theorem discovery_issuer_after_strip
    (url : string) (w w' : World) (resp : Response) (doc : list (string * json)) :
  send (mkRequest GET
          (JStr (rstrip_slash url ++ "/.well-known/openid-configuration"))
          None [] 10) w = (Returned resp, w') ->
  raise_for_status resp = inr tt ->
  resp_json resp = inr (JObj doc) ->
  (forall f, In f required_fields -> has_key f doc = true) ->
  exists r e',
    test_discovery {| self := init url; world := w; trace := [] |} = (inr r, e') /\
    (passed r = true <-> assoc "issuer" doc = Some (JStr (rstrip_slash url))).
Proof.
  intros Hsend Hst Hjson Hall.
  unfold test_discovery. exec.
  cbn [self world trace init discovery_url ngrok_url metadata].
  rewrite Hsend, Hst, Hjson.
  cbn [self world trace init discovery_url ngrok_url metadata].
  rewrite (all_present_no_missing doc required_fields Hall).
  cbn [nonempty py_getitem py_get py_ret].
  destruct (has_key_assoc "issuer" doc) as (issuer & ->); [apply Hall; simpl; tauto |].
  destruct (has_key_assoc "authorization_endpoint" doc) as (a & ->); [apply Hall; simpl; tauto |].
  destruct (has_key_assoc "token_endpoint" doc) as (t & ->); [apply Hall; simpl; tauto |].
  destruct (has_key_assoc "jwks_uri" doc) as (j & ->); [apply Hall; simpl; tauto |].
  cbn [py_ret].
  destruct (py_eq issuer (JStr (rstrip_slash url))) eqn:Heq; cbn [negb].
  - do 2 eexists. split; [reflexivity |]. cbn [passed].
    apply py_eq_str in Heq. subst. split; reflexivity.
  - do 2 eexists. split; [reflexivity |]. cbn [passed failed].
    split; [discriminate |]. intros H. injection H as ->.
    simpl in Heq. rewrite String.eqb_refl in Heq. discriminate.
Qed.
(** ** The JWKS check *)

Lemma check_keys_first (pre : list json) (key : json) (post : list json)
    (missing : list string) : forall i,
  Forall (fun k => missing_fields required_key_fields k = inr []) pre ->
  missing_fields required_key_fields key = inr missing ->
  missing <> [] ->
  check_keys i (pre ++ key :: post) =
    inr (Some (failed "JWKS Endpoint"
                 ("Key " ++ str_int (Z.of_nat (i + List.length pre))
                  ++ " missing fields: " ++ join missing) JNull)).
Proof.
  induction pre as [| k pre IH]; intros i Hpre Hkey Hne.
  - cbn [app check_keys]. rewrite Hkey. cbn [py_bind].
    destruct missing as [| f m]; [congruence |]. cbn [nonempty List.length].
    rewrite Nat.add_0_r. reflexivity.
  - inversion Hpre as [| ? ? Hk Hrest]. subst.
    cbn [app check_keys]. rewrite Hk. cbn [py_bind nonempty].
    rewrite (IH (S i) Hrest Hkey Hne). cbn [List.length].
    rewrite Nat.add_succ_r. reflexivity.
Qed.

(** C4. The JWKS check stops at the first key with a missing field.  When
    the fetched key set is a sequence whose elements before some position
    miss none of [kty], [use], [kid] and whose element at that position
    misses the non-empty list [missing], the check fails with the message
    that names that position and exactly [missing]; later elements are not
    looked at.  For the keys [{kty,use,kid}; {kty,use}] the message names
    key 1 and [kid]. *)
Theorem jwks_fails_fast
    (e : Env) (uri : json) (resp : Response) (w' : World) (jwks : json)
    (pre : list json) (key : json) (post : list json) (missing : list string) :
  py_truthy (metadata (self e)) = true ->
  py_get (metadata (self e)) "jwks_uri" JNull = inr uri ->
  py_truthy uri = true ->
  send (mkRequest GET uri None [] 10) (world e) = (Returned resp, w') ->
  raise_for_status resp = inr tt ->
  resp_json resp = inr jwks ->
  py_getitem jwks "keys" = inr (JArr (pre ++ key :: post)) ->
  Forall (fun k => missing_fields required_key_fields k = inr []) pre ->
  missing_fields required_key_fields key = inr missing ->
  missing <> [] ->
  fst (test_jwks e) =
    inr (failed "JWKS Endpoint"
           ("Key " ++ str_int (Z.of_nat (List.length pre))
            ++ " missing fields: " ++ join missing) JNull).
Proof.
  intros Hmd Huri Hut Hsend Hst Hjson Hkeys Hpre Hkey Hne.
  unfold test_jwks. exec.
  rewrite Hmd. cbn [negb]. rewrite Huri, Hut. cbn [negb].
  rewrite Hsend, Hst, Hjson.
  destruct (py_getitem_inr _ _ _ Hkeys) as (kv & -> & Hk).
  cbn [py_in py_getitem py_ret]. unfold has_key. rewrite Hk. cbn [negb py_len py_iter py_ret].
  rewrite length_app. cbn [List.length].
  replace (List.length pre + S (List.length post) =? 0)%nat with false
    by (symmetry; apply Nat.eqb_neq; lia).
  rewrite (check_keys_first pre key post missing 0%nat Hpre Hkey Hne).
  reflexivity.
Qed.
(** ** The Metadata-Compliance check *)

Lemma py_get_obj (kv : list (string * json)) (k : string) (d : json) :
  py_get (JObj kv) k d = inr (lookup_or d k kv).
Proof. reflexivity. Qed.

Lemma getitem_of_truthy (kv : list (string * json)) (k : string) (d : json) :
  py_truthy d = false ->
  py_truthy (lookup_or d k kv) = true ->
  py_getitem (JObj kv) k = inr (lookup_or d k kv).
Proof.
  unfold lookup_or, py_getitem. destruct (assoc k kv); [reflexivity | congruence].
Qed.

Lemma getitem_of_in (kv : list (string * json)) (k s : string) :
  py_in s (lookup_or (JArr []) k kv) = inr true ->
  py_getitem (JObj kv) k = inr (lookup_or (JArr []) k kv).
Proof.
  unfold lookup_or, py_getitem. destruct (assoc k kv); [reflexivity | discriminate].
Qed.

Lemma append_if_nil (c : bool) (m : string) (l : list string) :
  append_if c m l = [] -> c = false /\ l = [].
Proof.
  unfold append_if. destruct c; [| auto].
  intros H. destruct l; discriminate H.
Qed.

Lemma append_if_app (c : bool) (m : string) (l : list string) :
  append_if c m l = (l ++ issue_if c m)%list.
Proof. unfold append_if, issue_if. destruct c; [reflexivity |]. symmetry. apply app_nil_r. Qed.

(** The issues list the code ends with is the expected one. *)
Lemma compliance_issues_expected (kv : list (string * json))
    (has_code has_grant has_openid has_rs256 : bool) :
  py_in "code" (lookup_or (JArr []) "response_types_supported" kv) = inr has_code ->
  py_in "authorization_code" (lookup_or (JArr []) "grant_types_supported" kv)
    = inr has_grant ->
  (py_truthy (lookup_or JNull "scopes_supported" kv) = true ->
   py_in "openid" (lookup_or JNull "scopes_supported" kv) = inr has_openid) ->
  py_in "RS256" (lookup_or (JArr []) "id_token_signing_alg_values_supported" kv)
    = inr has_rs256 ->
  compliance_issues (JObj kv) =
    inr (expected_issues kv has_code has_grant has_openid has_rs256).
Proof.
  intros H1 H2 H5 H7.
  unfold compliance_issues, expected_issues, battery_issues.
  rewrite !py_get_obj. cbn [py_bind]. rewrite H1, H2, H7. cbn [py_bind].
  destruct (py_truthy (lookup_or JNull "scopes_supported" kv)) eqn:H4;
    cbn [negb py_bind py_ret].
  - rewrite (getitem_of_truthy kv "scopes_supported" JNull eq_refl H4).
    cbn [py_bind]. rewrite (H5 eq_refl). cbn [py_bind py_ret].
    rewrite !append_if_app. cbn [app]. rewrite <- !app_assoc. reflexivity.
  - rewrite !append_if_app. cbn [app]. rewrite <- !app_assoc. reflexivity.
Qed.

(** C3. The Metadata-Compliance check collects all its findings before it
    decides.  On a cached metadata mapping whose four membership tests
    evaluate, the issues list is the expected one: one issue for each
    violated item of the battery, none for a satisfied one, in the order of
    the battery.  If that list is not empty the check fails, its message
    gives the length of the list and its details carry the whole list; if
    it is empty the check passes.  In particular, when only the scopes lack
    "openid" (or are absent) and the signing algorithms lack "RS256", the
    list has exactly the two issues of these items. *)
Theorem compliance_accumulates (e : Env) (kv : list (string * json))
    (has_code has_grant has_openid has_rs256 : bool) :
  metadata (self e) = JObj kv ->
  kv <> [] ->
  py_in "code" (lookup_or (JArr []) "response_types_supported" kv) = inr has_code ->
  py_in "authorization_code" (lookup_or (JArr []) "grant_types_supported" kv)
    = inr has_grant ->
  (py_truthy (lookup_or JNull "scopes_supported" kv) = true ->
   py_in "openid" (lookup_or JNull "scopes_supported" kv) = inr has_openid) ->
  py_in "RS256" (lookup_or (JArr []) "id_token_signing_alg_values_supported" kv)
    = inr has_rs256 ->
  exists r,
    test_metadata_compliance e = (inr r, e) /\
    (expected_issues kv has_code has_grant has_openid has_rs256 <> [] ->
     r = failed "Metadata Compliance"
           ("Found "
            ++ str_int (Z.of_nat (List.length
                 (expected_issues kv has_code has_grant has_openid has_rs256)))
            ++ " compliance issue(s)")
           (JObj [("issues",
                   JArr (map JStr
                     (expected_issues kv has_code has_grant has_openid has_rs256)))])) /\
    (expected_issues kv has_code has_grant has_openid has_rs256 = [] ->
     passed r = true) /\
    (has_code = true -> has_grant = true ->
     py_truthy (lookup_or (JArr []) "token_endpoint_auth_methods_supported" kv) = true ->
     py_truthy (lookup_or (JArr []) "subject_types_supported" kv) = true ->
     py_truthy (lookup_or JNull "scopes_supported" kv) = false \/ has_openid = false ->
     has_rs256 = false ->
     exists issue,
       r = failed "Metadata Compliance" "Found 2 compliance issue(s)"
             (JObj [("issues",
                     JArr [ JStr issue;
                            JStr "Missing 'RS256' in id_token_signing_alg_values_supported" ])]) /\
       (issue = "No scopes_supported" \/ issue = "Missing 'openid' scope")).
Proof.
  intros Hmd Hne H1 H2 H5 H7.
  pose proof (compliance_issues_expected kv _ _ _ _ H1 H2 H5 H7) as Hiss.
  unfold test_metadata_compliance. exec. rewrite Hmd.
  destruct kv as [| p kv']; [congruence |].
  cbn [py_truthy negb].
  set (kv := p :: kv') in *.
  rewrite Hiss.
  set (issues := expected_issues kv has_code has_grant has_openid has_rs256) in *.
  destruct issues as [| i issues'] eqn:Eissues; cbn [nonempty].
  - (* nothing found: the check passes *)
    assert (Hc : has_code = true /\
                 py_truthy (lookup_or (JArr []) "subject_types_supported" kv) = true).
    { subst issues. unfold expected_issues, battery_issues in Eissues.
      destruct has_code; [| discriminate Eissues].
      destruct (py_truthy (lookup_or (JArr []) "subject_types_supported" kv));
        [split; reflexivity |].
      exfalso. cbn [negb issue_if app] in Eissues.
      repeat match type of Eissues with
             | (?a ++ ?b)%list = [] =>
                 apply app_eq_nil in Eissues as [_ Eissues]
             end.
      discriminate Eissues. }
    destruct Hc as [-> H6].
    rewrite (getitem_of_in kv "response_types_supported" "code" H1).
    rewrite (getitem_of_truthy kv "subject_types_supported" (JArr []) eq_refl H6).
    rewrite !py_get_obj.
    eexists. split; [reflexivity |].
    split; [congruence |]. split; [reflexivity |].
    intros _ -> H3 _ Hsc ->. exfalso.
    subst issues. unfold expected_issues, battery_issues in Eissues.
    rewrite H3, H6 in Eissues. cbn [negb issue_if app] in Eissues.
    apply app_eq_nil in Eissues as [_ Eissues]. discriminate Eissues.
  - eexists. split; [reflexivity |].
    split; [intros _; reflexivity |]. split; [discriminate |].
    intros -> -> H3 H6 Hsc ->.
    subst issues. unfold expected_issues, battery_issues in Eissues.
    rewrite H3, H6 in Eissues. cbn [negb issue_if app] in Eissues.
    destruct Hsc as [Hsc | ->].
    + rewrite Hsc in Eissues. cbn [app] in Eissues.
      injection Eissues as <- <-. eexists. split; [reflexivity | left; reflexivity].
    + destruct (py_truthy (lookup_or JNull "scopes_supported" kv));
        cbn [negb issue_if app] in Eissues; injection Eissues as <- <-;
        eexists; (split; [reflexivity |]); [right | left]; reflexivity.
Qed.

(** ** The Registration-CRUD check *)

Ltac step :=
  match goal with
  | |- context [match ?x with _ => _ end] =>
      lazymatch x with
      | context [match _ with _ => _ end] => fail
      | _ => destruct x eqn:?
      end
  end.

Ltac pick := solve [repeat first [reflexivity | left; reflexivity | right]].

Ltac positive :=
  repeat match goal with
         | H : negb _ = true |- _ => apply negb_true_iff in H
         | H : negb _ = false |- _ => apply negb_false_iff in H
         end.

Ltac known :=
  repeat match goal with
         | E : ?t = inr _ |- context [?t] => rewrite E; cbn [py_bind]
         | E : ?t = inl _ |- context [?t] => rewrite E; cbn [py_bind]
         | E : ?t = true |- context [?t] => rewrite E
         | E : ?t = false |- context [?t] => rewrite E
         end.

Ltac same_values :=
  repeat match goal with
         | H : Some _ = Some _ |- _ => injection H as ? ?; subst
         | H : None = Some _ |- _ => discriminate H
         | H1 : ?t = inr ?a, H2 : ?t = inr ?b |- _ =>
             assert (a = b) by congruence; subst; clear H2
         | H1 : ?t = inr _, H2 : ?t = inl _ |- _ => congruence
         end.


(** ** The JWKS guards under the gate *)

(** What a passed Discovery check leaves in the cache. *)
Lemma discovery_passed_metadata (e : Env) (r1 : TestResult) (e1 : Env) :
  test_discovery e = (inr r1, e1) ->
  passed r1 = true ->
  exists doc,
    metadata (self e1) = JObj doc /\
    (forall f, In f required_fields -> has_key f doc = true).
Proof.
  unfold test_discovery. exec.
  repeat step.
  all: intros [= <- <-] Hp; try discriminate Hp.
  cbn [self metadata] in *.
  match goal with
  | H : py_getitem ?d "issuer" = inr _ |- _ =>
      apply py_getitem_inr in H as (kv & -> & _)
  end.
  exists kv. split; [reflexivity |].
  match goal with
  | H : missing_fields _ _ = inr ?l, H' : nonempty ?l = false |- _ =>
      apply nonempty_false in H'; subst l; rewrite missing_fields_obj in H;
      assert (Hall : filter (fun f => negb (has_key f kv)) required_fields = [])
        by congruence
  end.
  intros f Hf. pose proof (proj1 (filter_nil_iff _ _) Hall f Hf) as Hk.
  cbv beta in Hk. apply negb_false_iff in Hk. exact Hk.
Qed.

(** C10, as the code has it.  After a passed Discovery check the cache is a
    mapping that holds [jwks_uri], and the JWKS check run next always returns
    a result whose message is never "Discovery must pass first".  Its
    message is "No jwks_uri in discovery" exactly when the cached [jwks_uri]
    value is falsy (an empty string, [null], [false], 0, an empty sequence
    or mapping): the Discovery check asks for the key, not for its value. *)
Theorem jwks_guards_under_gate (e : Env) (r1 : TestResult) (e1 : Env) :
  test_discovery e = (inr r1, e1) ->
  passed r1 = true ->
  exists doc uri r2 e2,
    metadata (self e1) = JObj doc /\
    assoc "jwks_uri" doc = Some uri /\
    test_jwks e1 = (inr r2, e2) /\
    message r2 <> "Discovery must pass first" /\
    (message r2 = "No jwks_uri in discovery" <-> py_truthy uri = false).
Proof.
  intros Hrun Hp.
  destruct (discovery_passed_metadata e r1 e1 Hrun Hp) as (doc & Hmd & Hall).
  destruct (has_key_assoc "jwks_uri" doc) as (uri & Huri);
    [apply Hall; simpl; tauto |].
  exists doc, uri.
  assert (Htruthy : py_truthy (JObj doc) = true).
  { destruct doc; [discriminate Huri | reflexivity]. }
  unfold test_jwks. exec. rewrite Hmd, Htruthy.
  cbn [negb py_get py_ret]. rewrite Huri.
  destruct (py_truthy uri) eqn:Hu; cbn [negb].
  2:{ do 2 eexists. do 3 (split; [reflexivity |]). cbn [message failed].
      split; [discriminate | split; reflexivity]. }
  repeat step.
  all: do 2 eexists; do 3 (split; [reflexivity |]).
  all: try match goal with
           | H : check_keys _ _ = inr (Some _) |- _ =>
               apply check_keys_stops in H as (i & m & ->)
           end.
  all: cbn [message failed].
  all: split; [intros H; simpl in H; discriminate H |].
  all: split; intros H; [simpl in H; discriminate H | discriminate H].
Qed.
End Properties.

(** * The properties at concrete providers *)

Example rstrip_slash_examples :
  rstrip_slash "https://example.org/" = "https://example.org" /\
  rstrip_slash "a//b///" = "a//b" /\
  rstrip_slash "///" = "".
Proof. repeat split. Qed.

Example str_int_examples :
  str_int 204 = "204" /\ str_int (-3) = "-3" /\ str_int 0 = "0".
Proof. repeat split. Qed.

Example py_eq_examples :
  py_eq (JObj [("a", JNum 1); ("b", JArr [JBool true])])
        (JObj [("b", JArr [JNum 1]); ("a", JBool true)]) = true /\
  py_eq (JStr "1") (JNum 1) = false.
Proof. split; reflexivity. Qed.

(** The gate closed: the discovery document does not parse. *)
Example gate_closed :
  fst (@run_all_tests Scripted (fresh_env [Returned (mkResponse 200 None)])) =
    inr [failed "Discovery Endpoint" "Failed: Expecting value" JNull].
Proof. reflexivity. Qed.

(** The gate open: five results, although every later check fails. *)
Example gate_open :
  match fst (@run_all_tests Scripted
               (fresh_env [ok (JObj (discovery_doc (JStr "https://example.org/jwks")))])) with
  | inr results => map passed results = [true; false; false; false; false]
  | inl _ => False
  end.
Proof. reflexivity. Qed.

Example main_without_argument :
  @main Scripted ["./conformance_validator.py"] [] =
    {| stdout := usage; ending := inr 1; exchanges := [] |}.
Proof. reflexivity. Qed.

Example main_exit_status_one :
  exit_status
    (@main Scripted ["./conformance_validator.py"; "https://example.org/"]
       [ok (JObj (discovery_doc (JStr "https://example.org/jwks")))]) = 1.
Proof. reflexivity. Qed.

(** The update answered with one redirect URI: no DELETE follows. *)
Example crud_update_one_uri :
  let run := @test_registration_crud Scripted
               (cached_env (JObj (discovery_doc JNull))
                  [ok created_client; ok created_client; ok updated_client_one_uri]) in
  fst run = inr (failed "Registration CRUD" "Client update failed" JNull) /\
  methods (trace (snd run)) = [POST; GET; PUT].
Proof. split; reflexivity. Qed.

(** Scopes without "openid" and algorithms without "RS256": two issues. *)
Example compliance_two_issues :
  fst (@test_metadata_compliance Scripted
         (cached_env (JObj (discovery_doc (JStr "https://example.org/jwks"))) [])) =
  inr (failed "Metadata Compliance" "Found 2 compliance issue(s)"
         (JObj [("issues",
                 JArr [ JStr "Missing 'openid' scope";
                        JStr "Missing 'RS256' in id_token_signing_alg_values_supported" ])])).
Proof. reflexivity. Qed.

Lemma compliance_accumulates_witness :
  exists issue,
    fst (@test_metadata_compliance Scripted
           (cached_env (JObj (discovery_doc (JStr "https://example.org/jwks"))) [])) =
    inr (failed "Metadata Compliance" "Found 2 compliance issue(s)"
           (JObj [("issues",
                   JArr [ JStr issue;
                          JStr "Missing 'RS256' in id_token_signing_alg_values_supported" ])])) /\
    (issue = "No scopes_supported" \/ issue = "Missing 'openid' scope").
Proof.
  destruct (@compliance_accumulates Scripted
              (cached_env (JObj (discovery_doc (JStr "https://example.org/jwks"))) [])
              (discovery_doc (JStr "https://example.org/jwks"))
              true true false false eq_refl)
    as (r & Hrun & _ & _ & Htwo); try reflexivity; [discriminate |].
  destruct Htwo as (issue & -> & Hor); try reflexivity; [right; reflexivity |].
  exists issue. rewrite Hrun. split; [reflexivity | exact Hor].
Defined.

Lemma jwks_fails_fast_witness :
  fst (@test_jwks Scripted
         (cached_env (JObj (discovery_doc (JStr "https://example.org/jwks")))
            [ok (JObj [("keys", JArr [full_key; key_without_kid])])])) =
  inr (failed "JWKS Endpoint" "Key 1 missing fields: kid" JNull).
Proof.
  apply (@jwks_fails_fast Scripted
           (cached_env (JObj (discovery_doc (JStr "https://example.org/jwks")))
              [ok (JObj [("keys", JArr [full_key; key_without_kid])])])
           (JStr "https://example.org/jwks")
           (mkResponse 200 (Some (JObj [("keys", JArr [full_key; key_without_kid])])))
           [] (JObj [("keys", JArr [full_key; key_without_kid])])
           [full_key] key_without_kid [] ["kid"]);
    try reflexivity.
  - constructor; [reflexivity | constructor].
  - discriminate.
Defined.

Lemma registration_requires_secret_witness :
  fst (@test_registration Scripted
         (cached_env (JObj (discovery_doc (JStr "https://example.org/jwks")))
            [ok (JObj secretless_client)])) =
  inr (failed "Registration Endpoint"
         "Missing client_secret for confidential client" (JObj secretless_client)).
Proof.
  apply (@registration_requires_secret Scripted
           (cached_env (JObj (discovery_doc (JStr "https://example.org/jwks")))
              [ok (JObj secretless_client)])
           (JStr "https://example.org/register")
           (mkResponse 200 (Some (JObj secretless_client))) []
           secretless_client);
    try reflexivity.
  intros H. vm_compute in H. discriminate H.
Defined.

Lemma discovery_issuer_after_strip_witness :
  exists r e',
    @test_discovery Scripted
      (fresh_env [ok (JObj (discovery_doc (JStr "https://example.org/jwks")))]) =
      (inr r, e') /\
    passed r = true.
Proof.
  destruct (@discovery_issuer_after_strip Scripted "https://example.org/"
              [ok (JObj (discovery_doc (JStr "https://example.org/jwks")))] []
              (mkResponse 200 (Some (JObj (discovery_doc (JStr "https://example.org/jwks")))))
              (discovery_doc (JStr "https://example.org/jwks"))
              eq_refl eq_refl eq_refl)
    as (r & e' & Hrun & Hiff).
  - intros f Hf. simpl in Hf.
    repeat (destruct Hf as [<- | Hf]; [reflexivity |]). contradiction.
  - exists r, e'. split; [exact Hrun | apply Hiff; reflexivity].
Defined.

Lemma jwks_guards_under_gate_witness :
  exists r2 e2,
    @test_jwks Scripted
      (snd (@test_discovery Scripted
              (fresh_env [ ok (JObj (discovery_doc (JStr "https://example.org/jwks")));
                           ok (JObj [("keys", JArr [full_key])]) ]))) =
      (inr r2, e2) /\
    message r2 <> "Discovery must pass first" /\
    message r2 <> "No jwks_uri in discovery".
Proof.
  edestruct (@jwks_guards_under_gate Scripted
               (fresh_env [ ok (JObj (discovery_doc (JStr "https://example.org/jwks")));
                            ok (JObj [("keys", JArr [full_key])]) ]))
    as (doc & uri & r2 & e2 & Hmd & Huri & Hrun & Hfirst & Hiff);
    [reflexivity | reflexivity |].
  exists r2, e2. split; [exact Hrun |]. split; [exact Hfirst |].
  intros Hm. apply Hiff in Hm.
  vm_compute in Hmd. injection Hmd as <-. vm_compute in Huri.
  injection Huri as <-. discriminate Hm.
Defined.

(** C10 as stated fails: a discovery document whose [jwks_uri] is the empty
    string passes the Discovery check, and the JWKS check run behind the
    gate then ends in its "No jwks_uri in discovery" branch. *)
Lemma jwks_uri_guard_reached_under_gate :
  exists r1 e1 r2 e2,
    @test_discovery Scripted (fresh_env [ok (JObj (discovery_doc (JStr "")))]) =
      (inr r1, e1) /\
    passed r1 = true /\
    @test_jwks Scripted e1 = (inr r2, e2) /\
    message r2 = "No jwks_uri in discovery".
Proof.
  do 4 eexists. split; [reflexivity |]. split; [reflexivity |].
  split; reflexivity.
Qed.

(** A document without [jwks_uri] and with a foreign issuer is reported for
    its missing field; with every field present, for its issuer. *)
Example discovery_missing_before_issuer :
  fst (@test_discovery Scripted
         (fresh_env [ok (JObj [ ("issuer", JStr "https://other.example");
                                ("authorization_endpoint", JStr "a");
                                ("token_endpoint", JStr "t");
                                ("response_types_supported", JArr []);
                                ("subject_types_supported", JArr []);
                                ("id_token_signing_alg_values_supported", JArr []) ])])) =
  inr (failed "Discovery Endpoint" "Missing required fields: jwks_uri"
         (JObj [ ("issuer", JStr "https://other.example");
                 ("authorization_endpoint", JStr "a");
                 ("token_endpoint", JStr "t");
                 ("response_types_supported", JArr []);
                 ("subject_types_supported", JArr []);
                 ("id_token_signing_alg_values_supported", JArr []) ])).
Proof. reflexivity. Qed.

Example discovery_issuer_mismatch :
  match fst (@test_discovery Scripted
               (fresh_env [ok (JObj (("issuer", JStr "https://other.example")
                                       :: discovery_doc (JStr "u")))])) with
  | inr r => message r = "Issuer mismatch: https://other.example != https://example.org"
  | inl _ => False
  end.
Proof. reflexivity. Qed.


(** * Further properties of the validator *)

Section Coverage.
Context {RT : Runtime}.

Ltac run :=
  cbv [ try_except bind lift ret get_self set_metadata request
        requests_get requests_post requests_put requests_delete
        py_bind py_ret py_raise ].

Ltac case_split :=
  match goal with
  | |- context [match ?x with _ => _ end] =>
      lazymatch x with
      | context [match _ with _ => _ end] => fail
      | _ => destruct x eqn:?
      end
  end.

(** ** Trailing slashes *)

Lemma rstrip_slash_last (s : string) : last_char (rstrip_slash s) <> Some "/"%char.
Proof.
  induction s as [| c s IH]; [discriminate |].
  cbn [rstrip_slash].
  destruct (rstrip_slash s) as [| d t] eqn:E.
  - destruct (Ascii.eqb c "/") eqn:Hc; [discriminate |].
    cbn [last_char]. intros [= ->]. discriminate Hc.
  - cbn [last_char] in *. exact IH.
Qed.

Lemma rstrip_slash_fixed (s : string) :
  last_char s <> Some "/"%char -> rstrip_slash s = s.
Proof.
  induction s as [| c s IH]; [reflexivity |].
  intros H. cbn [rstrip_slash].
  destruct s as [| d t].
  - cbn [rstrip_slash]. cbn [last_char] in H.
    destruct (Ascii.eqb_spec c "/"); [congruence | reflexivity].
  - rewrite IH by exact H. reflexivity.
Qed.

Lemma rstrip_slash_slashes (n : nat) : rstrip_slash (slashes n) = "".
Proof. induction n as [| n IH]; [reflexivity |]. cbn [slashes rstrip_slash]. rewrite IH. reflexivity. Qed.

Lemma rstrip_slash_app (s : string) (n : nat) :
  rstrip_slash (s ++ slashes n) = rstrip_slash s.
Proof.
  induction s as [| c s IH].
  - cbn [append]. rewrite rstrip_slash_slashes. reflexivity.
  - cbn [append rstrip_slash]. rewrite IH. reflexivity.
Qed.

(** X1. [rstrip('/')] as the script uses it: the result never ends in a
    slash, a string that does not end in a slash is kept as it is, any
    number of trailing slashes is dropped, and stripping twice (as [main]
    and then [__init__] do) is stripping once. *)
Theorem rstrip_slash_spec (s : string) (n : nat) :
  last_char (rstrip_slash s) <> Some "/"%char /\
  (last_char s <> Some "/"%char -> rstrip_slash (s ++ slashes n) = s) /\
  rstrip_slash (rstrip_slash s) = rstrip_slash s /\
  init (rstrip_slash s) = init s.
Proof.
  split; [apply rstrip_slash_last |].
  split; [intros H; rewrite rstrip_slash_app; apply rstrip_slash_fixed, H |].
  assert (Hid : rstrip_slash (rstrip_slash s) = rstrip_slash s)
    by apply rstrip_slash_fixed, rstrip_slash_last.
  split; [exact Hid |]. unfold init. rewrite Hid. reflexivity.
Qed.

(** X2. [main] reads its second argument only, and trailing slashes on it
    make no difference: the run for [url] followed by slashes and further
    arguments is the run for [url]. *)
Theorem main_ignores_trailing_slashes
    (prog url : string) (n : nat) (rest : list string) (w : World) :
  main (prog :: (url ++ slashes n) :: rest) w = main [prog; url] w.
Proof.
  unfold main. cbn [List.length Nat.ltb Nat.leb nth].
  rewrite rstrip_slash_app. reflexivity.
Qed.

(** ** The Discovery check, completely *)

(** X3. What the Discovery check does to the state.  It performs exactly
    one exchange, the GET of the discovery URL, and never changes the two
    URLs of the tester.  It assigns the cache as soon as the document is
    fetched and parsed, before validating it: a document that then fails
    validation stays cached; when the exchange raises, the status is an HTTP
    error or the body does not parse, the cache keeps its former value. *)
Theorem discovery_effects (e : Env) :
  exists r e',
    test_discovery e = (inr r, e') /\
    ngrok_url (self e') = ngrok_url (self e) /\
    discovery_url (self e') = discovery_url (self e) /\
    world e' = snd (send (discovery_request (self e)) (world e)) /\
    trace e' =
      (trace e ++
       [(discovery_request (self e),
         fst (send (discovery_request (self e)) (world e)))])%list /\
    metadata (self e') =
      match fst (send (discovery_request (self e)) (world e)) with
      | Returned resp =>
          match raise_for_status resp, resp_json resp with
          | inr _, inr doc => doc
          | _, _ => metadata (self e)
          end
      | Raised _ => metadata (self e)
      end.
Proof.
  unfold test_discovery, discovery_request. run.
  destruct (send _ (world e)) as [[x | resp] w']; cbn [fst snd].
  { do 2 eexists. repeat split. }
  destruct (raise_for_status resp) as [x | []].
  { do 2 eexists. repeat split. }
  destruct (resp_json resp) as [x | doc].
  { do 2 eexists. repeat split. }
  cbn [self metadata ngrok_url discovery_url].
  repeat case_split.
  all: do 2 eexists; repeat split.
Qed.

Lemma discovery_pass_inversion (e : Env) (r : TestResult) (e' : Env) :
  test_discovery e = (inr r, e') ->
  passed r = true ->
  exists resp doc w',
    send (discovery_request (self e)) (world e) = (Returned resp, w') /\
    raise_for_status resp = inr tt /\
    resp_json resp = inr (JObj doc) /\
    (forall f, In f required_fields -> has_key f doc = true) /\
    assoc "issuer" doc = Some (JStr (ngrok_url (self e))).
Proof.
  unfold test_discovery, discovery_request. run.
  destruct (send _ (world e)) as [[x | resp] w'].
  { intros [= <- <-] Hp. discriminate Hp. }
  destruct (raise_for_status resp) as [x | []] eqn:Hst.
  { intros [= <- <-] Hp. discriminate Hp. }
  destruct (resp_json resp) as [x | doc] eqn:Hjson.
  { intros [= <- <-] Hp. discriminate Hp. }
  cbn [self metadata ngrok_url discovery_url].
  destruct (missing_fields required_fields doc) as [x | missing] eqn:Hmiss.
  { intros [= <- <-] Hp. discriminate Hp. }
  destruct (nonempty missing) eqn:Hne.
  { intros [= <- <-] Hp. discriminate Hp. }
  destruct (py_getitem doc "issuer") as [x | issuer] eqn:Hiss.
  { intros [= <- <-] Hp. discriminate Hp. }
  destruct (py_eq issuer (JStr (ngrok_url (self e)))) eqn:Heq; cbn [negb].
  2:{ intros [= <- <-] Hp. discriminate Hp. }
  intros _ _.
  apply py_getitem_inr in Hiss as (kv & -> & Hiss).
  apply py_eq_str in Heq. subst issuer.
  apply nonempty_false in Hne. subst missing.
  rewrite missing_fields_obj in Hmiss.
  assert (Hall : filter (fun f => negb (has_key f kv)) required_fields = [])
    by congruence.
  exists resp, kv, w'. repeat (split; [reflexivity || assumption |]).
  split; [| assumption].
  intros f Hf. pose proof (proj1 (filter_nil_iff _ _) Hall f Hf) as Hk.
  cbv beta in Hk. apply negb_false_iff in Hk. exact Hk.
Qed.

(** The value a mapping gives to a key it holds for sure. *)
Lemma discovery_pass_result (e : Env) (resp : Response) (w' : World)
    (doc : list (string * json)) :
  send (discovery_request (self e)) (world e) = (Returned resp, w') ->
  raise_for_status resp = inr tt ->
  resp_json resp = inr (JObj doc) ->
  (forall f, In f required_fields -> has_key f doc = true) ->
  assoc "issuer" doc = Some (JStr (ngrok_url (self e))) ->
  exists authorization token jwks,
    assoc "authorization_endpoint" doc = Some authorization /\
    assoc "token_endpoint" doc = Some token /\
    assoc "jwks_uri" doc = Some jwks /\
    fst (test_discovery e) =
      inr (mkTestResult "Discovery Endpoint" true "All required fields present"
             (JObj [ ("issuer", JStr (ngrok_url (self e)));
                     ("endpoints",
                      JObj [ ("authorization", authorization);
                             ("token", token);
                             ("jwks", jwks);
                             ("registration",
                              match assoc "registration_endpoint" doc with
                              | Some v => v
                              | None => JStr "N/A"
                              end) ]) ])).
Proof.
  intros Hsend Hst Hjson Hall Hiss.
  destruct (has_key_assoc "authorization_endpoint" doc) as (a & Ha); [apply Hall; simpl; tauto |].
  destruct (has_key_assoc "token_endpoint" doc) as (t & Ht); [apply Hall; simpl; tauto |].
  destruct (has_key_assoc "jwks_uri" doc) as (j & Hj); [apply Hall; simpl; tauto |].
  exists a, t, j. repeat (split; [assumption |]).
  unfold test_discovery. unfold discovery_request in Hsend. run.
  rewrite Hsend, Hst, Hjson.
  cbn [self world trace discovery_url ngrok_url metadata].
  rewrite (all_present_no_missing doc required_fields Hall).
  cbn [nonempty py_getitem py_get py_ret]. rewrite Hiss, Ha, Ht, Hj.
  cbn [py_ret].
  rewrite (proj2 (py_eq_str _ _) eq_refl). reflexivity.
Qed.

(** X4. The Discovery check passes exactly when the exchange returns,
    without an HTTP error status, a document that parses to a mapping which
    holds the seven required keys and whose issuer is the string kept as
    base URL.  A document that is a sequence or a string naming all seven
    keys does not pass. *)
Theorem discovery_passes_iff (e : Env) :
  exists r e',
    test_discovery e = (inr r, e') /\
    (passed r = true <->
     exists resp doc,
       fst (send (discovery_request (self e)) (world e)) = Returned resp /\
       raise_for_status resp = inr tt /\
       resp_json resp = inr (JObj doc) /\
       (forall f, In f required_fields -> has_key f doc = true) /\
       assoc "issuer" doc = Some (JStr (ngrok_url (self e)))).
Proof.
  destruct (test_discovery_returns e) as (r & e' & Hrun).
  exists r, e'. split; [assumption |]. split.
  - intros Hp.
    destruct (discovery_pass_inversion e r e' Hrun Hp)
      as (resp & doc & w' & Hsend & H).
    exists resp, doc. rewrite Hsend. split; [reflexivity | exact H].
  - intros (resp & doc & Hsend & Hst & Hjson & Hall & Hiss).
    destruct (send (discovery_request (self e)) (world e)) as [o w'] eqn:Hs.
    cbn [fst] in Hsend. subst o.
    destruct (discovery_pass_result e resp w' doc Hs Hst Hjson Hall Hiss)
      as (a & t & j & _ & _ & _ & Hres).
    rewrite Hrun in Hres. cbn [fst] in Hres. injection Hres as ->. reflexivity.
Qed.

(** X5. The summary of a passed Discovery check: the issuer, the three
    required endpoints as the document gives them, and the registration
    endpoint, reported as "N/A" when the document has none. *)
Theorem discovery_summary (e : Env) (resp : Response) (w' : World)
    (doc : list (string * json)) :
  send (discovery_request (self e)) (world e) = (Returned resp, w') ->
  raise_for_status resp = inr tt ->
  resp_json resp = inr (JObj doc) ->
  (forall f, In f required_fields -> has_key f doc = true) ->
  assoc "issuer" doc = Some (JStr (ngrok_url (self e))) ->
  exists authorization token jwks,
    assoc "authorization_endpoint" doc = Some authorization /\
    assoc "token_endpoint" doc = Some token /\
    assoc "jwks_uri" doc = Some jwks /\
    fst (test_discovery e) =
      inr (mkTestResult "Discovery Endpoint" true "All required fields present"
             (JObj [ ("issuer", JStr (ngrok_url (self e)));
                     ("endpoints",
                      JObj [ ("authorization", authorization);
                             ("token", token);
                             ("jwks", jwks);
                             ("registration",
                              match assoc "registration_endpoint" doc with
                              | Some v => v
                              | None => JStr "N/A"
                              end) ]) ])).
Proof. exact (discovery_pass_result e resp w' doc). Qed.

(** X6. The missing-fields report of the Discovery check: for a document
    that parses to a mapping lacking at least one required key, the result
    is the failure that lists exactly the absent keys, in the order of the
    required list whatever the order of the document, with the raw document
    attached; the issuer is not looked at. *)
Theorem discovery_missing_fields_report (e : Env) (resp : Response) (w' : World)
    (doc : list (string * json)) :
  send (discovery_request (self e)) (world e) = (Returned resp, w') ->
  raise_for_status resp = inr tt ->
  resp_json resp = inr (JObj doc) ->
  filter (fun f => negb (has_key f doc)) required_fields <> [] ->
  fst (test_discovery e) =
    inr (failed "Discovery Endpoint"
           ("Missing required fields: "
            ++ join (filter (fun f => negb (has_key f doc)) required_fields))
           (JObj doc)).
Proof.
  intros Hsend Hst Hjson Hne.
  unfold test_discovery. unfold discovery_request in Hsend. run.
  rewrite Hsend, Hst, Hjson.
  cbn [self world trace discovery_url ngrok_url metadata].
  rewrite missing_fields_obj.
  destruct (filter (fun f => negb (has_key f doc)) required_fields);
    [congruence | reflexivity].
Qed.

(** ** The later checks before the network *)

(** X7. Without a cached document the four later checks stop at once.  On
    a tester whose cache is falsy (never assigned, or an empty document
    cached by a failed Discovery check) each of them returns the failure
    "Discovery must pass first" and leaves the state as it is: no exchange
    takes place. *)
Theorem later_checks_need_cache (e : Env) :
  py_truthy (metadata (self e)) = false ->
  test_jwks e = (inr (failed "JWKS Endpoint" "Discovery must pass first" JNull), e) /\
  test_registration e =
    (inr (failed "Registration Endpoint" "Discovery must pass first" JNull), e) /\
  test_registration_crud e =
    (inr (failed "Registration CRUD" "Discovery must pass first" JNull), e) /\
  test_metadata_compliance e =
    (inr (failed "Metadata Compliance" "Discovery must pass first" JNull), e).
Proof.
  intros H.
  unfold test_jwks, test_registration, test_registration_crud,
    test_metadata_compliance.
  run. rewrite H. repeat split.
Qed.

(** X8. A cached document without a usable registration endpoint (the key
    is absent, or its value is falsy) makes both registration checks fail
    with "No registration_endpoint in discovery" before any exchange. *)
Theorem registration_needs_endpoint (e : Env) (kv : list (string * json)) :
  metadata (self e) = JObj kv ->
  kv <> [] ->
  py_truthy (lookup_or JNull "registration_endpoint" kv) = false ->
  test_registration e =
    (inr (failed "Registration Endpoint" "No registration_endpoint in discovery" JNull),
     e) /\
  test_registration_crud e =
    (inr (failed "Registration CRUD" "No registration_endpoint in discovery" JNull), e).
Proof.
  intros Hmd Hne Hreg.
  unfold test_registration, test_registration_crud. run.
  rewrite Hmd. destruct kv as [| p kv']; [congruence |].
  cbn [py_truthy negb py_get py_ret]. fold (lookup_or JNull "registration_endpoint" (p :: kv')).
  rewrite Hreg. split; reflexivity.
Qed.

(** ** The Metadata-Compliance check, completely *)

(** X9. The Metadata-Compliance check works on the cache alone: it leaves
    the whole state as it found it (no exchange, no assignment), and two
    testers with the same cached metadata get the same result. *)
Theorem compliance_reads_cache_only (e1 e2 : Env) :
  snd (test_metadata_compliance e1) = e1 /\
  (metadata (self e1) = metadata (self e2) ->
   fst (test_metadata_compliance e1) = fst (test_metadata_compliance e2)).
Proof.
  unfold test_metadata_compliance. run. split.
  - repeat case_split; reflexivity.
  - intros <-. repeat case_split; reflexivity.
Qed.

Lemma compliance_issues_nil (kv : list (string * json)) :
  compliance_issues (JObj kv) = inr [] <-> compliant kv.
Proof.
  unfold compliant, compliance_issues. rewrite !py_get_obj. cbn [py_bind].
  split.
  - destruct (py_in "code" _) as [x | b1]; cbn [py_bind]; [discriminate |].
    destruct (py_in "authorization_code" _) as [x | b2]; cbn [py_bind];
      [discriminate |].
    destruct (py_truthy (lookup_or JNull "scopes_supported" kv)) eqn:H4;
      cbn [negb py_bind py_ret].
    2:{ destruct (py_in "RS256" _) as [x | b7]; cbn [py_bind]; [discriminate |].
        intros H. injection H as H.
        apply append_if_nil in H as [_ H]. apply append_if_nil in H as [_ H].
        destruct (append_if _ _ _); discriminate H. }
    rewrite (getitem_of_truthy kv "scopes_supported" JNull eq_refl H4).
    cbn [py_bind].
    destruct (py_in "openid" _) as [x | b5]; cbn [py_bind]; [discriminate |].
    destruct (py_in "RS256" _) as [x | b7]; cbn [py_bind]; [discriminate |].
    intros H. injection H as H.
    apply append_if_nil in H as [H7 H]. apply append_if_nil in H as [H6 H].
    apply append_if_nil in H as [H5 H]. apply append_if_nil in H as [H3 H].
    apply append_if_nil in H as [H2 H]. apply append_if_nil in H as [H1 _].
    apply negb_false_iff in H1, H2, H3, H5, H6, H7. subst.
    repeat split; assumption.
  - intros (H1 & H2 & H3 & H4 & H5 & H6 & H7).
    rewrite H1, H2, H3, H4, H6, H7. cbn [py_bind negb py_ret].
    rewrite (getitem_of_truthy kv "scopes_supported" JNull eq_refl H4).
    cbn [py_bind]. rewrite H5. reflexivity.
Qed.

(** X10. What a pass of the Metadata-Compliance check certifies, and what
    earns it.  On a cached metadata mapping the check passes exactly when
    all six items hold: "code" among the response types,
    "authorization_code" among the grant types, auth methods present and
    non-empty, scopes present, non-empty and holding "openid", subject types
    present and non-empty, "RS256" among the signing algorithms.  The three
    keys the Discovery check does not require are required here. *)
Theorem compliance_passes_iff (e : Env) (kv : list (string * json)) :
  metadata (self e) = JObj kv ->
  exists r,
    test_metadata_compliance e = (inr r, e) /\
    (passed r = true <-> compliant kv).
Proof.
  intros Hmd.
  unfold test_metadata_compliance. run. rewrite Hmd.
  destruct kv as [| p kv'].
  { eexists. split; [reflexivity |]. cbn.
    split; [discriminate | intros (H & _); discriminate H]. }
  cbn [py_truthy negb].
  set (kv := p :: kv') in *.
  pose proof (compliance_issues_nil kv) as Hnil.
  destruct (compliance_issues (JObj kv)) as [x | issues].
  { eexists. split; [reflexivity |].
    split; [discriminate | intros H; apply Hnil in H; discriminate H]. }
  destruct issues as [| i issues]; cbn [nonempty].
  2:{ eexists. split; [reflexivity |].
      split; [discriminate | intros H; apply Hnil in H; discriminate H]. }
  assert (Hc : compliant kv) by (apply Hnil; reflexivity).
  destruct Hc as (H1 & H2 & H3 & H4 & H5 & H6 & H7).
  rewrite (getitem_of_in kv "response_types_supported" "code" H1).
  rewrite (getitem_of_truthy kv "subject_types_supported" (JArr []) eq_refl H6).
  rewrite !py_get_obj.
  eexists. split; [reflexivity |].
  split; [intros _; repeat split; assumption | reflexivity].
Qed.

(** ** The JWKS check beyond its first failure *)

Lemma complete_key_missing (key : json) :
  complete_key key -> missing_fields required_key_fields key = inr [].
Proof.
  intros (kv & -> & Hkty & Huse & Hkid).
  apply all_present_no_missing.
  intros f [<- | [<- | [<- | []]]]; assumption.
Qed.

Lemma check_keys_complete (keys : list json) : forall i,
  Forall complete_key keys -> check_keys i keys = inr None.
Proof.
  induction keys as [| key rest IH]; intros i H; [reflexivity |].
  inversion H as [| ? ? Hk Hrest]. subst.
  cbn [check_keys]. rewrite (complete_key_missing key Hk).
  cbn [py_bind nonempty]. apply IH, Hrest.
Qed.

Lemma get_each_complete (f : string) (keys : list json) :
  Forall complete_key keys -> get_each f keys = inr (map (key_field f) keys).
Proof.
  induction keys as [| key rest IH]; intros H; [reflexivity |].
  inversion H as [| ? ? Hk Hrest]. subst.
  destruct Hk as (kv & -> & _).
  cbn [get_each map]. rewrite py_get_obj. cbn [py_bind].
  rewrite (IH Hrest). reflexivity.
Qed.

(** X11. The report of a valid key set.  When the fetched key set is a
    non-empty sequence of mappings that all hold [kty], [use] and [kid], the
    JWKS check passes; its message and its details give the number of keys,
    and the details list, key by key, the [kty] value and the [alg] value,
    [None] standing for a key without [alg]: a missing [alg] is no error. *)
Theorem jwks_valid_keys_pass
    (e : Env) (uri : json) (resp : Response) (w' : World) (jwks : json)
    (keys : list json) :
  py_truthy (metadata (self e)) = true ->
  py_get (metadata (self e)) "jwks_uri" JNull = inr uri ->
  py_truthy uri = true ->
  send (mkRequest GET uri None [] 10) (world e) = (Returned resp, w') ->
  raise_for_status resp = inr tt ->
  resp_json resp = inr jwks ->
  py_getitem jwks "keys" = inr (JArr keys) ->
  keys <> [] ->
  Forall complete_key keys ->
  fst (test_jwks e) =
    inr (mkTestResult "JWKS Endpoint" true
           ("Valid JWKS with " ++ str_int (Z.of_nat (List.length keys)) ++ " key(s)")
           (JObj [ ("key_count", JNum (Z.of_nat (List.length keys)));
                   ("key_types", JArr (map (key_field "kty") keys));
                   ("algorithms", JArr (map (key_field "alg") keys)) ])).
Proof.
  intros Hmd Huri Hut Hsend Hst Hjson Hkeys Hne Hall.
  unfold test_jwks. run.
  rewrite Hmd. cbn [negb]. rewrite Huri, Hut. cbn [negb].
  rewrite Hsend, Hst, Hjson.
  destruct (py_getitem_inr _ _ _ Hkeys) as (kv & -> & Hk).
  cbn [py_in py_getitem py_ret]. unfold has_key. rewrite Hk.
  cbn [negb py_len py_iter py_ret].
  destruct keys as [| k ks]; [congruence |].
  cbn [List.length Nat.eqb].
  rewrite (check_keys_complete (k :: ks) 0%nat Hall).
  rewrite !(get_each_complete _ (k :: ks) Hall).
  reflexivity.
Qed.

(** X12. The two degenerate key sets.  A fetched mapping without a [keys]
    entry fails the JWKS check with "JWKS missing 'keys' field"; one whose
    [keys] value has length 0 (an empty sequence, but also an empty mapping
    or string) fails it with "JWKS has no keys". *)
Theorem jwks_degenerate_key_sets
    (e : Env) (uri : json) (resp : Response) (w' : World)
    (kv : list (string * json)) :
  py_truthy (metadata (self e)) = true ->
  py_get (metadata (self e)) "jwks_uri" JNull = inr uri ->
  py_truthy uri = true ->
  send (mkRequest GET uri None [] 10) (world e) = (Returned resp, w') ->
  raise_for_status resp = inr tt ->
  resp_json resp = inr (JObj kv) ->
  (assoc "keys" kv = None ->
   fst (test_jwks e) = inr (failed "JWKS Endpoint" "JWKS missing 'keys' field" JNull)) /\
  (forall v, assoc "keys" kv = Some v -> py_len v = inr 0%nat ->
   fst (test_jwks e) = inr (failed "JWKS Endpoint" "JWKS has no keys" JNull)).
Proof.
  intros Hmd Huri Hut Hsend Hst Hjson.
  unfold test_jwks. run.
  rewrite Hmd. cbn [negb]. rewrite Huri, Hut. cbn [negb].
  rewrite Hsend, Hst, Hjson.
  cbn [py_in py_getitem py_ret]. unfold has_key.
  split.
  - intros ->. reflexivity.
  - intros v -> Hlen. cbn [negb py_ret]. rewrite Hlen. reflexivity.
Qed.

(** ** The Registration check, completely *)

(** X13. When the registration POST returns, without an HTTP error, a
    mapping, the Registration check passes exactly when [client_id] is a
    string and the client is either public (auth method "none") or has a
    [client_secret].  A pass reports the first 8 characters of the client id
    followed by "..." and never the rest of it, and whether a secret and a
    registration access token came with it. *)
Theorem registration_passes_iff
    (e : Env) (endpoint : json) (resp : Response) (w' : World)
    (client : list (string * json)) :
  py_truthy (metadata (self e)) = true ->
  py_get (metadata (self e)) "registration_endpoint" JNull = inr endpoint ->
  py_truthy endpoint = true ->
  send (mkRequest POST endpoint (Some registration_payload)
          [("Content-Type", "application/json")] 10) (world e)
    = (Returned resp, w') ->
  raise_for_status resp = inr tt ->
  resp_json resp = inr (JObj client) ->
  exists r e',
    test_registration e = (inr r, e') /\
    (passed r = true <->
     exists s,
       assoc "client_id" client = Some (JStr s) /\
       (assoc "token_endpoint_auth_method" client = Some (JStr "none") \/
        has_key "client_secret" client = true)) /\
    (forall s,
       assoc "client_id" client = Some (JStr s) ->
       passed r = true ->
       details r =
         JObj [ ("client_id", JStr (first_chars 8 s ++ "..."));
                ("has_secret", JBool (has_key "client_secret" client));
                ("has_registration_token",
                 JBool (has_key "registration_access_token" client)) ]).
Proof.
  intros Hmd Hreg Hep Hsend Hst Hjson.
  unfold test_registration, registered. run.
  rewrite Hmd. cbn [negb]. rewrite Hreg, Hep. cbn [negb]. rewrite Hsend, Hst, Hjson.
  unfold required_resp_fields.
  cbn [missing_fields py_in py_bind py_ret py_get py_getitem]. unfold has_key.
  destruct (assoc "client_id" client) as [cid |] eqn:Hid; cbn [nonempty].
  2:{ do 2 eexists. split; [reflexivity |]. cbn [passed failed].
      split; [split; [discriminate | intros (s & H & _); discriminate H] |].
      intros s H. discriminate H. }
  assert (Hnone : py_eq (match assoc "token_endpoint_auth_method" client with
                         | Some v => v
                         | None => JNull
                         end) (JStr "none") = true <->
                  assoc "token_endpoint_auth_method" client = Some (JStr "none")).
  { rewrite py_eq_str.
    destruct (assoc "token_endpoint_auth_method" client);
      split; intros H; congruence. }
  destruct (py_eq _ (JStr "none")) eqn:Heq; cbn [negb].
  - (* a public client *)
    pose proof (proj1 Hnone eq_refl) as Hpub.
    destruct cid as [| cb | cn | cs | cl | co]; cbn [py_head8_dots py_raise py_ret].
    all: do 2 eexists; (split; [reflexivity |]); cbn [passed failed details].
    all: split;
      [split; [try discriminate | intros (s1 & [= H] & _); try discriminate H]
      | intros s0 [= H] Hp; try discriminate Hp].
    + intros _. eexists. split; [reflexivity | left; assumption].
    + reflexivity.
    + subst. reflexivity.
  - (* a confidential client *)
    assert (Hn : assoc "token_endpoint_auth_method" client <> Some (JStr "none")).
    { intros H. apply Hnone in H. discriminate H. }
    destruct (assoc "client_secret" client) as [sec |] eqn:Hsec; cbn [negb].
    2:{ do 2 eexists. split; [reflexivity |]. cbn [passed failed].
        split; [split; [discriminate | intros (s & _ & [H | H]); congruence] |].
        intros s _ H. discriminate H. }
    destruct cid as [| cb | cn | cs | cl | co]; cbn [py_head8_dots py_raise py_ret].
    all: do 2 eexists; (split; [reflexivity |]); cbn [passed failed details].
    all: split;
      [split; [try discriminate | intros (s1 & [= H] & _); try discriminate H]
      | intros s0 [= H] Hp; try discriminate Hp].
    + intros _. eexists. split; [reflexivity | right; reflexivity].
    + reflexivity.
    + subst. reflexivity.
Qed.

(** ** The Registration-CRUD check, request by request *)

Ltac trace_split :=
  first [ symmetry; apply app_nil_r
        | cbn [trace]; rewrite <- ?app_assoc; reflexivity ].

Ltac in_cases :=
  repeat match goal with
         | H : _ \/ _ |- _ => destruct H
         | H : False |- _ => destruct H
         | H : (_, _) = (_, _) |- _ => injection H as ? ?; subst
         end.

(** X14. Credential continuity.  Whatever the provider answers, every
    request the Registration-CRUD check sends after the creating POST goes
    to the same URL, the registration endpoint followed by "/" and the
    client id of the create response, and carries the same header,
    "Authorization: Bearer" with the registration access token of that
    response; the POST itself goes to the registration endpoint of the
    cached metadata, with the fixed payload and no credential. *)
Theorem crud_credential_continuity (e : Env) :
  exists r e' steps reg_endpoint client_id reg_token,
    test_registration_crud e = (inr r, e') /\
    trace e' = (trace e ++ steps)%list /\
    forall rq o,
      In (rq, o) steps ->
      py_get (metadata (self e)) "registration_endpoint" JNull = inr reg_endpoint /\
      ((rq = mkRequest POST reg_endpoint (Some crud_payload) [] 10) \/
       (rq_method rq <> POST /\
        rq_url rq = client_url reg_endpoint client_id /\
        rq_headers rq = bearer reg_token /\
        exists resp client,
          In (mkRequest POST reg_endpoint (Some crud_payload) [] 10, Returned resp)
            steps /\
          resp_json resp = inr client /\
          py_getitem client "client_id" = inr client_id /\
          py_get client "registration_access_token" JNull = inr reg_token)).
Proof.
  unfold test_registration_crud, client_url. run.
  repeat case_split.
  all: do 3 eexists.
  all: first
         [ match goal with
           | H1 : py_get _ "registration_endpoint" _ = inr ?reg,
             H2 : py_getitem ?c "client_id" = inr ?cid,
             H3 : py_get ?c "registration_access_token" _ = inr ?tok |- _ =>
               exists reg, cid, tok
           end
         | match goal with
           | H1 : py_get _ "registration_endpoint" _ = inr ?reg |- _ =>
               exists reg, JNull, JNull
           end
         | exists JNull, JNull, JNull ].
  all: split; [reflexivity |].
  all: split; [trace_split |].
  all: intros rq' o' Hin; cbn [In app] in Hin; in_cases.
  all: split; [first [reflexivity | assumption] |].
  all: first [ left; reflexivity | right ].
  all: cbn [rq_method rq_url rq_headers].
  all: split; [discriminate |].
  all: split; [reflexivity |].
  all: split; [reflexivity |].
  all: do 2 eexists.
  all: split; [cbn [In app]; left; reflexivity |].
  all: repeat split; eassumption.
Qed.

(** X15. The Delete sub-step judges the status alone.  If the check got as
    far as sending the DELETE and the provider answered it, the check passes
    exactly when the status is 204; any other status, an error status
    included (nothing raises for it here), gives the failure
    "Delete returned <status>, expected 204". *)
Theorem crud_delete_status (e : Env) :
  exists r e' steps,
    test_registration_crud e = (inr r, e') /\
    trace e' = (trace e ++ steps)%list /\
    forall rq resp,
      In (rq, Returned resp) steps ->
      rq_method rq = DELETE ->
      (passed r = true <-> status_code resp = 204) /\
      (status_code resp <> 204 ->
       r = failed "Registration CRUD"
             ("Delete returned " ++ str_int (status_code resp) ++ ", expected 204")
             JNull).
Proof.
  unfold test_registration_crud. run.
  repeat case_split.
  all: do 3 eexists; split; [reflexivity |].
  all: split; [trace_split |].
  all: intros rq' resp' Hin Hm; cbn [In app] in Hin; in_cases.
  all: try discriminate Hm.
  all: try match goal with H : Raised _ = Returned _ |- _ => discriminate H end.
  all: cbn [passed failed].
  all: match goal with
       | H : negb (status_code _ =? 204) = _ |- _ =>
           first [ apply negb_true_iff, Z.eqb_neq in H
                 | apply negb_false_iff, Z.eqb_eq in H ]
       end.
  all: split; [split; intros; congruence | intros; congruence].
Qed.

(** X16. The create response.  When the creating POST returns a mapping,
    a missing [client_id] surfaces as the caught [KeyError], not as a named
    failure, while a present [client_id] with a missing or falsy
    [registration_access_token] gives the named failure "No
    registration_access_token in response"; in both cases the POST is the
    only exchange. *)
Theorem crud_create_response
    (e : Env) (endpoint : json) (resp : Response) (w' : World)
    (client : list (string * json)) :
  py_truthy (metadata (self e)) = true ->
  py_get (metadata (self e)) "registration_endpoint" JNull = inr endpoint ->
  py_truthy endpoint = true ->
  send (mkRequest POST endpoint (Some crud_payload) [] 10) (world e)
    = (Returned resp, w') ->
  raise_for_status resp = inr tt ->
  resp_json resp = inr (JObj client) ->
  (assoc "client_id" client = None ->
   test_registration_crud e =
     (inr (failed "Registration CRUD"
             ("Failed: " ++ exn_text (KeyError "client_id")) JNull),
      {| self := self e; world := w';
         trace := (trace e ++
                   [(mkRequest POST endpoint (Some crud_payload) [] 10,
                     Returned resp)])%list |})) /\
  (assoc "client_id" client <> None ->
   py_truthy (lookup_or JNull "registration_access_token" client) = false ->
   test_registration_crud e =
     (inr (failed "Registration CRUD" "No registration_access_token in response"
             JNull),
      {| self := self e; world := w';
         trace := (trace e ++
                   [(mkRequest POST endpoint (Some crud_payload) [] 10,
                     Returned resp)])%list |})).
Proof.
  intros Hmd Hreg Hep Hsend Hst Hjson.
  unfold test_registration_crud. run.
  rewrite Hmd. cbn [negb]. rewrite Hreg, Hep. cbn [negb].
  rewrite Hsend, Hst, Hjson.
  cbn [py_getitem py_get py_ret py_raise].
  split.
  - intros ->. reflexivity.
  - intros Hid Htok. destruct (assoc "client_id" client); [| congruence].
    fold (lookup_or JNull "registration_access_token" client).
    rewrite Htok. reflexivity.
Qed.

(** ** The whole run *)

Ltac emitting :=
  intros e; run; repeat case_split;
  eexists; (split; [cbn [snd]; trace_split |]);
  (split; [cbn [List.length app]; lia | unfold all_bounded; cbn [app]; repeat constructor]).

Lemma test_discovery_emits : emits 1 test_discovery.
Proof. unfold test_discovery. emitting. Qed.

Lemma test_jwks_emits : emits 1 test_jwks.
Proof. unfold test_jwks. emitting. Qed.

Lemma test_registration_emits : emits 1 test_registration.
Proof. unfold test_registration, registered. emitting. Qed.

Lemma test_registration_crud_emits : emits 4 test_registration_crud.
Proof. unfold test_registration_crud. emitting. Qed.

Lemma test_metadata_compliance_emits : emits 0 test_metadata_compliance.
Proof. unfold test_metadata_compliance. emitting. Qed.

Lemma discovery_first_exchange (e : Env) :
  exists o,
    trace (snd (test_discovery e)) =
      (trace e ++ [(discovery_request (self e), o)])%list.
Proof.
  unfold test_discovery, discovery_request. run. repeat case_split.
  all: eexists; cbn [snd trace]; reflexivity.
Qed.

Lemma all_bounded_app (l1 l2 : list (Request * Outcome)) :
  all_bounded l1 -> all_bounded l2 -> all_bounded (l1 ++ l2).
Proof. unfold all_bounded. intros H1 H2. apply Forall_app. split; assumption. Qed.

(** X17. The network budget of a run.  [run_all_tests] always starts with
    the GET of the discovery URL and performs at most six further exchanges
    (one for JWKS, one for Registration, four for Registration-CRUD, none
    for Metadata-Compliance); every request carries the timeout of 10
    seconds and none is sent twice as a retry.  A run that reports a single
    result performed the discovery exchange only. *)
Theorem run_exchange_budget (e : Env) :
  exists results e' o rest,
    run_all_tests e = (inr results, e') /\
    trace e' = (trace e ++ (discovery_request (self e), o) :: rest)%list /\
    (List.length rest <= 6)%nat /\
    all_bounded ((discovery_request (self e), o) :: rest) /\
    (List.length results = 1%nat -> rest = []).
Proof.
  destruct (run_all_tests_unfold e) as (r1 & e1 & E1 & Hfail & Hpass).
  destruct (discovery_first_exchange e) as (o & T1). rewrite E1 in T1. cbn [snd] in T1.
  assert (B1 : all_bounded [(discovery_request (self e), o)])
    by (repeat constructor).
  destruct (passed r1) eqn:Hp.
  - destruct (Hpass eq_refl)
      as (r2 & e2 & r3 & e3 & r4 & e4 & r5 & e5 & E2 & E3 & E4 & E5 & Erun).
    destruct (test_jwks_emits e1) as (s2 & T2 & L2 & B2). rewrite E2 in T2.
    destruct (test_registration_emits e2) as (s3 & T3 & L3 & B3). rewrite E3 in T3.
    destruct (test_registration_crud_emits e3) as (s4 & T4 & L4 & B4).
    rewrite E4 in T4.
    destruct (test_metadata_compliance_emits e4) as (s5 & T5 & L5 & B5).
    rewrite E5 in T5. cbn [snd] in *.
    exists [r1; r2; r3; r4; r5], e5, o, (s2 ++ s3 ++ s4 ++ s5)%list.
    split; [assumption |]. split.
    { rewrite T5, T4, T3, T2, T1. rewrite <- !app_assoc. reflexivity. }
    split; [rewrite !length_app; lia |]. split; [| discriminate].
    change (all_bounded ([(discovery_request (self e), o)] ++ s2 ++ s3 ++ s4 ++ s5)).
    repeat apply all_bounded_app; assumption.
  - exists [r1], e1, o, []. split; [auto |]. split; [assumption |].
    split; [cbn; lia |]. split; [assumption | reflexivity].
Qed.

Lemma run_all_tests_results (e : Env) :
  exists results e',
    run_all_tests e = (inr results, e') /\
    (forall r, In r results -> exists nm, well_formed nm r) /\
    ((exists r1, results = [r1] /\ passed r1 = false) \/ List.length results = 5%nat).
Proof.
  destruct (run_all_tests_unfold e) as (r1 & e1 & E1 & Hfail & Hpass).
  apply test_discovery_shape in E1 as W1.
  destruct (passed r1) eqn:Hp.
  - destruct (Hpass eq_refl)
      as (r2 & e2 & r3 & e3 & r4 & e4 & r5 & e5 & E2 & E3 & E4 & E5 & Erun).
    exists [r1; r2; r3; r4; r5], e5.
    split; [assumption |]. split; [| right; reflexivity].
    apply test_jwks_shape in E2. apply test_registration_shape in E3.
    apply test_registration_crud_shape in E4.
    apply test_metadata_compliance_shape in E5.
    intros r [<- | [<- | [<- | [<- | [<- | []]]]]]; eauto.
  - exists [r1], e1. split; [auto |]. split; [| left; eauto].
    intros r [<- | []]; eauto.
Qed.


Ltac unguarded H :=
  intros r e'; run; rewrite H; cbn [negb]; repeat case_split;
  intros [= <- <-];
  try match goal with
      | K : check_keys _ _ = inr (Some _) |- _ =>
          apply check_keys_stops in K as (? & ? & ->)
      end;
  cbn [message failed]; intros C; simpl in C; discriminate C.

Lemma test_jwks_unguarded (e : Env) :
  py_truthy (metadata (self e)) = true ->
  forall r e', test_jwks e = (inr r, e') -> message r <> "Discovery must pass first".
Proof. intros H. unfold test_jwks. unguarded H. Qed.

Lemma test_registration_unguarded (e : Env) :
  py_truthy (metadata (self e)) = true ->
  forall r e', test_registration e = (inr r, e') ->
               message r <> "Discovery must pass first".
Proof. intros H. unfold test_registration, registered. unguarded H. Qed.

Lemma test_registration_crud_unguarded (e : Env) :
  py_truthy (metadata (self e)) = true ->
  forall r e', test_registration_crud e = (inr r, e') ->
               message r <> "Discovery must pass first".
Proof. intros H. unfold test_registration_crud. unguarded H. Qed.

Lemma test_metadata_compliance_unguarded (e : Env) :
  py_truthy (metadata (self e)) = true ->
  forall r e', test_metadata_compliance e = (inr r, e') ->
               message r <> "Discovery must pass first".
Proof. intros H. unfold test_metadata_compliance. unguarded H. Qed.

Lemma test_discovery_message (e : Env) :
  forall r e', test_discovery e = (inr r, e') ->
               message r <> "Discovery must pass first".
Proof.
  intros r e'. unfold test_discovery. run. repeat case_split.
  all: intros [= <- <-]; cbn [message failed]; intros C; simpl in C; discriminate C.
Qed.

(** X19. Under the gate the cache guards of the later checks are dead: no
    result of a run of [run_all_tests] carries the message "Discovery must
    pass first".  That failure can only be seen by calling a later check on
    a tester whose cache is empty. *)
Theorem cache_guards_dead_under_gate (e : Env) :
  exists results e',
    run_all_tests e = (inr results, e') /\
    forall r, In r results -> message r <> "Discovery must pass first".
Proof.
  destruct (run_all_tests_unfold e) as (r1 & e1 & E1 & Hfail & Hpass).
  pose proof (test_discovery_message e r1 e1 E1) as M1.
  destruct (passed r1) eqn:Hp.
  - destruct (Hpass eq_refl)
      as (r2 & e2 & r3 & e3 & r4 & e4 & r5 & e5 & E2 & E3 & E4 & E5 & Erun).
    exists [r1; r2; r3; r4; r5], e5. split; [assumption |].
    destruct (discovery_passed_metadata e r1 e1 E1 Hp) as (doc & Hmd & Hall).
    assert (T1 : py_truthy (metadata (self e1)) = true).
    { rewrite Hmd. destruct (has_key_assoc "issuer" doc) as (v & Hv);
        [apply Hall; simpl; tauto |].
      destruct doc; [discriminate Hv | reflexivity]. }
    pose proof (test_jwks_keeps e1) as K2. rewrite E2 in K2.
    pose proof (test_registration_keeps e2) as K3. rewrite E3 in K3.
    pose proof (test_registration_crud_keeps e3) as K4. rewrite E4 in K4.
    cbn [snd] in *.
    assert (T2 : py_truthy (metadata (self e2)) = true) by (rewrite K2; exact T1).
    assert (T3 : py_truthy (metadata (self e3)) = true) by (rewrite K3; exact T2).
    assert (T4 : py_truthy (metadata (self e4)) = true) by (rewrite K4; exact T3).
    intros r [<- | [<- | [<- | [<- | [<- | []]]]]].
    + exact M1.
    + exact (test_jwks_unguarded e1 T1 _ _ E2).
    + exact (test_registration_unguarded e2 T2 _ _ E3).
    + exact (test_registration_crud_unguarded e3 T3 _ _ E4).
    + exact (test_metadata_compliance_unguarded e4 T4 _ _ E5).
  - exists [r1], e1. split; [auto |]. intros r [<- | []]. exact M1.
Qed.

End Coverage.

(** * The further properties at concrete providers *)

Lemma discovery_summary_witness :
  exists r,
    fst (@test_discovery Scripted (fresh_env [ok (JObj minimal_doc)])) = inr r /\
    details r =
      JObj [ ("issuer", JStr "https://example.org");
             ("endpoints",
              JObj [ ("authorization", JStr "https://example.org/authorize");
                     ("token", JStr "https://example.org/token");
                     ("jwks", JStr "https://example.org/jwks");
                     ("registration", JStr "N/A") ]) ].
Proof.
  destruct (@discovery_summary Scripted (fresh_env [ok (JObj minimal_doc)])
              (mkResponse 200 (Some (JObj minimal_doc))) [] minimal_doc
              eq_refl eq_refl eq_refl)
    as (a & t & j & Ha & Ht & Hj & Hres).
  - intros f Hf. simpl in Hf.
    repeat (destruct Hf as [<- | Hf]; [reflexivity |]). contradiction.
  - reflexivity.
  - eexists. split; [exact Hres |].
    vm_compute in Ha, Ht, Hj.
    injection Ha as <-. injection Ht as <-. injection Hj as <-. reflexivity.
Defined.

Lemma discovery_missing_fields_report_witness :
  fst (@test_discovery Scripted (fresh_env [ok (JObj short_doc)])) =
  inr (failed "Discovery Endpoint"
         "Missing required fields: token_endpoint, jwks_uri" (JObj short_doc)).
Proof.
  apply (@discovery_missing_fields_report Scripted (fresh_env [ok (JObj short_doc)])
           (mkResponse 200 (Some (JObj short_doc))) [] short_doc
           eq_refl eq_refl eq_refl).
  discriminate.
Defined.

Lemma later_checks_need_cache_witness :
  @test_jwks Scripted (fresh_env []) =
    (inr (failed "JWKS Endpoint" "Discovery must pass first" JNull), fresh_env []) /\
  @test_registration Scripted (fresh_env []) =
    (inr (failed "Registration Endpoint" "Discovery must pass first" JNull),
     fresh_env []) /\
  @test_registration_crud Scripted (fresh_env []) =
    (inr (failed "Registration CRUD" "Discovery must pass first" JNull),
     fresh_env []) /\
  @test_metadata_compliance Scripted (fresh_env []) =
    (inr (failed "Metadata Compliance" "Discovery must pass first" JNull),
     fresh_env []).
Proof. exact (@later_checks_need_cache Scripted (fresh_env []) eq_refl). Defined.

Lemma registration_needs_endpoint_witness :
  @test_registration Scripted (cached_env (JObj minimal_doc) []) =
    (inr (failed "Registration Endpoint" "No registration_endpoint in discovery" JNull),
     cached_env (JObj minimal_doc) []) /\
  @test_registration_crud Scripted (cached_env (JObj minimal_doc) []) =
    (inr (failed "Registration CRUD" "No registration_endpoint in discovery" JNull),
     cached_env (JObj minimal_doc) []).
Proof.
  apply (@registration_needs_endpoint Scripted (cached_env (JObj minimal_doc) [])
           minimal_doc eq_refl); [discriminate | reflexivity].
Defined.

Lemma compliance_passes_iff_witness :
  exists r,
    @test_metadata_compliance Scripted (cached_env (JObj compliant_doc) []) =
      (inr r, cached_env (JObj compliant_doc) []) /\
    passed r = true.
Proof.
  destruct (@compliance_passes_iff Scripted (cached_env (JObj compliant_doc) [])
              compliant_doc eq_refl) as (r & Hrun & Hiff).
  exists r. split; [exact Hrun |]. apply Hiff. repeat split.
Defined.

Lemma jwks_valid_keys_pass_witness :
  fst (@test_jwks Scripted
         (cached_env (JObj minimal_doc)
            [ok (JObj [("keys", JArr [full_key; key_with_alg])])])) =
  inr (mkTestResult "JWKS Endpoint" true "Valid JWKS with 2 key(s)"
         (JObj [ ("key_count", JNum 2);
                 ("key_types", JArr [JStr "RSA"; JStr "EC"]);
                 ("algorithms", JArr [JNull; JStr "ES256"]) ])).
Proof.
  apply (@jwks_valid_keys_pass Scripted
           (cached_env (JObj minimal_doc)
              [ok (JObj [("keys", JArr [full_key; key_with_alg])])])
           (JStr "https://example.org/jwks")
           (mkResponse 200 (Some (JObj [("keys", JArr [full_key; key_with_alg])])))
           [] (JObj [("keys", JArr [full_key; key_with_alg])])
           [full_key; key_with_alg]);
    try reflexivity.
  - discriminate.
  - repeat constructor; eexists; (split; [reflexivity |]); repeat split.
Defined.

Lemma jwks_degenerate_key_sets_witness :
  fst (@test_jwks Scripted
         (cached_env (JObj minimal_doc) [ok (JObj [("keys", JArr [])])])) =
  inr (failed "JWKS Endpoint" "JWKS has no keys" JNull).
Proof.
  apply (proj2 (@jwks_degenerate_key_sets Scripted
                  (cached_env (JObj minimal_doc) [ok (JObj [("keys", JArr [])])])
                  (JStr "https://example.org/jwks")
                  (mkResponse 200 (Some (JObj [("keys", JArr [])]))) []
                  [("keys", JArr [])]
                  eq_refl eq_refl eq_refl eq_refl eq_refl eq_refl)
               (JArr []));
    reflexivity.
Defined.

Lemma registration_passes_iff_witness :
  exists r e',
    @test_registration Scripted
      (cached_env (JObj compliant_doc) [ok (JObj confidential_client)]) = (inr r, e') /\
    passed r = true /\
    details r =
      JObj [ ("client_id", JStr "01234567...");
             ("has_secret", JBool true);
             ("has_registration_token", JBool false) ].
Proof.
  destruct (@registration_passes_iff Scripted
              (cached_env (JObj compliant_doc) [ok (JObj confidential_client)])
              (JStr "https://example.org/register")
              (mkResponse 200 (Some (JObj confidential_client))) []
              confidential_client
              eq_refl eq_refl eq_refl eq_refl eq_refl eq_refl)
    as (r & e' & Hrun & Hiff & Hdet).
  assert (Hp : passed r = true).
  { apply Hiff. exists "0123456789abcdef". split; [reflexivity | right; reflexivity]. }
  exists r, e'. split; [exact Hrun |]. split; [exact Hp |].
  exact (Hdet "0123456789abcdef" eq_refl Hp).
Defined.

Lemma crud_create_response_witness :
  fst (@test_registration_crud Scripted
         (cached_env (JObj compliant_doc) [ok (JObj client_without_id)])) =
  inr (failed "Registration CRUD" "Failed: 'client_id'" JNull).
Proof.
  pose proof (proj1 (@crud_create_response Scripted
                       (cached_env (JObj compliant_doc) [ok (JObj client_without_id)])
                       (JStr "https://example.org/register")
                       (mkResponse 200 (Some (JObj client_without_id))) []
                       client_without_id
                       eq_refl eq_refl eq_refl eq_refl eq_refl eq_refl)
                    eq_refl) as H.
  rewrite H. reflexivity.
Defined.

(** A full run against a provider that answers every exchange well: seven
    exchanges, five passes, exit code 0. *)
Example full_run_passes :
  let run := @main Scripted ["./conformance_validator.py"; "https://example.org//"]
               [ ok (JObj compliant_doc);
                 ok (JObj [("keys", JArr [full_key; key_with_alg])]);
                 ok (JObj confidential_client);
                 ok created_client;
                 ok created_client;
                 ok (JObj [("redirect_uris", JArr [JStr "a"; JStr "b"])]);
                 Returned (mkResponse 204 None) ] in
  ending run = inr 0 /\
  methods (exchanges run) = [GET; GET; POST; POST; GET; PUT; DELETE].
Proof. split; reflexivity. Qed.

(** A deletion answered with 404 is reported by its status. *)
Example crud_delete_not_found :
  fst (@test_registration_crud Scripted
         (cached_env (JObj compliant_doc)
            [ ok created_client; ok created_client;
              ok (JObj [("redirect_uris", JArr [JStr "a"; JStr "b"])]);
              Returned (mkResponse 404 None) ])) =
  inr (failed "Registration CRUD" "Delete returned 404, expected 204" JNull).
Proof. reflexivity. Qed.

(** ** Characters and standard output *)

(** Characters, not bytes: "é" is one character of two bytes. *)
Example characters_not_bytes :
  py_len (JStr "é") = inr 1%nat /\
  py_len (JStr "éa") = inr 2%nat /\
  py_len (JStr lone_surrogate) = inr 1%nat /\
  first_chars 8 "clïent-0123" = "clïent-0" /\
  py_iter (JStr "aé") = inr [JStr "a"; JStr "é"].
Proof. repeat split. Qed.

(** An update answered with the one-character string "é" as [redirect_uris]
    fails the Update sub-step; no DELETE follows. *)
Example crud_update_one_character :
  let run := @test_registration_crud Scripted
               (cached_env (JObj compliant_doc)
                  [ ok created_client; ok created_client;
                    ok (JObj [("redirect_uris", JStr "é")]);
                    Returned (mkResponse 204 None) ]) in
  fst run = inr (failed "Registration CRUD" "Client update failed" JNull) /\
  methods (trace (snd run)) = [POST; GET; PUT].
Proof. split; reflexivity. Qed.

(** A client id with a letter of two bytes among its first eight
    characters. *)
Example registration_reports_eight_characters :
  match fst (@test_registration Scripted
               (cached_env (JObj compliant_doc)
                  [ok (JObj [ ("client_id", JStr "clïent-0123");
                              ("client_secret", JStr "s") ])])) with
  | inr r => assoc "client_id" (match details r with JObj kv => kv | _ => [] end)
             = Some (JStr "clïent-0...")
  | inl _ => False
  end.
Proof. reflexivity. Qed.

